(** * Auto YouTube Video Generator backend: pipeline contract

    A shallow embedding of [main.py] and [schemas.py]: the pydantic models
    as records with validating constructors, the three action stubs, the
    job endpoints and the pipeline runner, written over a small
    state-and-exception monad that threads the record store and a log of
    the calls made.  The store helpers ([create_document], [get_documents])
    live in [database.py]; they enter as an interface, with an in-memory
    instance for the statements that depend on what a store does. *)

From Stdlib Require Import ZArith String Ascii List Lia.
From stdpp Require Import base option list gmap strings pretty.

Set Warnings "-register-all".

Local Open Scope Z_scope.
Local Open Scope string_scope.

(** ** Python values and string operations *)

Module Py.

(** A Python [str] is a [string] whose characters are read as the code
    points below 256. *)

Definition nl : string := String "010"%char "".

(** [str.isspace] on one character: TAB..CR, FS..US, space, NEL, NBSP. *)
Definition is_space (c : ascii) : bool :=
  let n := Z.of_N (N_of_ascii c) in
  ((9 <=? n)%Z && (n <=? 13)%Z) || ((28 <=? n)%Z && (n <=? 31)%Z)
  || (n =? 32)%Z || (n =? 133)%Z || (n =? 160)%Z.

Fixpoint lstrip (s : string) : string :=
  match s with
  | String c s' => if is_space c then lstrip s' else s
  | EmptyString => EmptyString
  end.

Definition rstrip (s : string) : string :=
  String.rev (lstrip (String.rev s)).

(** [s.strip()] *)
Definition strip (s : string) : string := rstrip (lstrip s).

Fixpoint startswith (p s : string) : bool :=
  match p, s with
  | EmptyString, _ => true
  | String a p', String b s' => if decide (a = b) then startswith p' s' else false
  | String _ _, EmptyString => false
  end.

(** [needle in hay] *)
Fixpoint contains (needle hay : string) : bool :=
  startswith needle hay ||
  match hay with
  | String _ hay' => contains needle hay'
  | EmptyString => false
  end.

(** [x or d] for [x : Optional[str]]: [None] and [""] are falsy. *)
Definition str_or (x : option string) (d : string) : string :=
  match x with
  | Some s => if decide (s = "") then d else s
  | None => d
  end.

(** [enumerate(l, start)] *)
Fixpoint enumerate {A} (start : Z) (l : list A) : list (Z * A) :=
  match l with
  | [] => []
  | x :: l' => (start, x) :: enumerate (start + 1) l'
  end.

(** The values a dictionary holds.  A nested dictionary keeps its
    insertion order; floats are left out. *)
Inductive pyval : Type :=
| PNone
| PBool (b : bool)
| PInt (z : Z)
| PStr (s : string)
| PList (l : list pyval)
| PDict (items : list (string * pyval))
| PObjectId (oid : N).

Definition of_opt_str (o : option string) : pyval :=
  match o with Some s => PStr s | None => PNone end.

Definition of_str_list (l : list string) : pyval := PList (PStr <$> l).

Definition of_opt_str_list (o : option (list string)) : pyval :=
  match o with Some l => of_str_list l | None => PNone end.

Definition hexdigit (n : N) : ascii :=
  match n with
  | 0 => "0" | 1 => "1" | 2 => "2" | 3 => "3" | 4 => "4" | 5 => "5"
  | 6 => "6" | 7 => "7" | 8 => "8" | 9 => "9" | 10 => "a" | 11 => "b"
  | 12 => "c" | 13 => "d" | 14 => "e" | _ => "f"
  end%N%char.

Definition has_char (c : ascii) (s : string) : bool :=
  contains (String c "") s.

(** The quote [repr] picks for a string: double quotes only when the
    string has a single quote and no double quote. *)
Definition squote : ascii := "039"%char.
Definition dquote : ascii := "034"%char.
Definition backslash : ascii := "092"%char.

Definition repr_quote (s : string) : ascii :=
  if has_char squote s && negb (has_char dquote s) then dquote else squote.

Definition repr_char (q c : ascii) : string :=
  let n := N_of_ascii c in
  if bool_decide (c = q) || bool_decide (c = backslash)
  then String backslash (String c "")
  else if (n =? 9)%N then String backslash "t"
  else if (n =? 10)%N then String backslash "n"
  else if (n =? 13)%N then String backslash "r"
  else if (n <? 32)%N || ((127 <=? n)%N && (n <=? 160)%N) || (n =? 173)%N
       then String backslash (String "x"%char
              (String (hexdigit (n / 16)) (String (hexdigit (n mod 16)) "")))
  else String c "".

Fixpoint repr_chars (q : ascii) (s : string) : string :=
  match s with
  | String c s' => repr_char q c +:+ repr_chars q s'
  | EmptyString => EmptyString
  end.

Definition repr_str (s : string) : string :=
  let q := repr_quote s in
  String q (repr_chars q s +:+ String q "").

(** [repr(v)]; an ObjectId is a counter here and prints as its decimal. *)
Fixpoint repr (v : pyval) : string :=
  match v with
  | PNone => "None"
  | PBool true => "True"
  | PBool false => "False"
  | PInt z => pretty z
  | PStr s => repr_str s
  | PList l =>
      "[" +:+ (fix items (l : list pyval) : string :=
                 match l with
                 | [] => ""
                 | x :: l' =>
                     repr x +:+ match l' with [] => "" | _ => ", " +:+ items l' end
                 end) l +:+ "]"
  | PDict kvs =>
      "{" +:+ (fix items (l : list (string * pyval)) : string :=
                 match l with
                 | [] => ""
                 | (k, x) :: l' =>
                     repr_str k +:+ ": " +:+ repr x
                     +:+ match l' with [] => "" | _ => ", " +:+ items l' end
                 end) kvs +:+ "}"
  | PObjectId oid =>
      "ObjectId(" +:+ String squote (pretty oid) +:+ String squote ")"
  end.

(** [v[k]] on a dictionary value; [None] where Python raises. *)
Definition getitem (v : pyval) (k : string) : option pyval :=
  match v with
  | PDict items => snd <$> find (λ kv, bool_decide (kv.1 = k)) items
  | _ => None
  end.

(** [str(v)] *)
Definition str (v : pyval) : string :=
  match v with
  | PStr s => s
  | PObjectId oid => pretty oid
  | _ => repr v
  end.

End Py.

Import Py.

(** ** Exceptions and results *)

(** The exceptions that leave an endpoint: [HTTPException(status_code,
    detail)] and pydantic's [ValidationError], kept as the list of the
    fields it refuses. *)
Inductive exn : Type :=
| HTTPException (status_code : Z) (detail : string)
| ValidationError (locs : list string).

Inductive outcome (A : Type) : Type :=
| Returned (a : A)
| Raised (e : exn).
Arguments Returned {A} a.
Arguments Raised {A} e.

(** What a store helper does: it returns, or raises an [Exception] whose
    [str] is [msg]. *)
Inductive attempt (A : Type) : Type :=
| Done (a : A)
| Failed (msg : string).
Arguments Done {A} a.
Arguments Failed {A} msg.

(** ** schemas.py *)

Module VideoJob.

Definition format_literals : list string := ["1080p"; "9:16"; "16:9"; "square"].
Definition status_literals : list string :=
  ["queued"; "running"; "completed"; "failed"].

Record t : Type := mk {
  topic : string;
  trigger_phrase : string;
  voice : string;
  style : string;
  format : string;
  status : string;
  step : option string;
  progress : Z;
  script : option string;
  voiceover_url : option string;
  broll_urls : option (list string);
  final_url : option string;
  logs : option (list string);
  meta : option (list (string * pyval))
}.

(** The keyword arguments of [VideoJob(...)], each of its declared type;
    [None] stands for an argument left out (for the [Optional] fields,
    whose default is [None], also for an explicit [None]). *)
Record kwargs : Type := args {
  k_topic : option string;
  k_trigger_phrase : option string;
  k_voice : option string;
  k_style : option string;
  k_format : option string;
  k_status : option string;
  k_step : option string;
  k_progress : option Z;
  k_script : option string;
  k_voiceover_url : option string;
  k_broll_urls : option (list string);
  k_final_url : option string;
  k_logs : option (list string);
  k_meta : option (list (string * pyval))
}.

(** [Field(...)]: a required field that is missing is an error. *)
Definition required (loc : string) (x : option string) : list string :=
  match x with Some _ => [] | None => [loc] end.

(** [Literal[...]]: the supplied value must be one of the literals. *)
Definition literal (loc : string) (allowed : list string) (x : option string)
  : list string :=
  match x with
  | Some v => if bool_decide (v ∈ allowed) then [] else [loc]
  | None => []
  end.

(** [Field(0, ge=0, le=100)] *)
Definition ge_le (loc : string) (lo hi : Z) (x : option Z) : list string :=
  match x with
  | Some v => if bool_decide (lo <= v)%Z && bool_decide (v <= hi)%Z then [] else [loc]
  | None => []
  end.

Definition errors (k : kwargs) : list string :=
  (required "topic" (k_topic k)
   ++ literal "format" format_literals (k_format k)
   ++ literal "status" status_literals (k_status k)
   ++ ge_le "progress" 0 100 (k_progress k))%list.

(** [VideoJob(...)] on keyword arguments [k]: validation, then the defaults for what was left out. *)
Definition new (k : kwargs) : outcome t :=
  match errors k with
  | [] =>
      Returned {|
        topic := default "" (k_topic k);
        trigger_phrase :=
          default "Create a full video automatically." (k_trigger_phrase k);
        voice := default "alloy" (k_voice k);
        style := default "engaging" (k_style k);
        format := default "16:9" (k_format k);
        status := default "queued" (k_status k);
        step := k_step k;
        progress := default 0%Z (k_progress k);
        script := k_script k;
        voiceover_url := k_voiceover_url k;
        broll_urls := k_broll_urls k;
        final_url := k_final_url k;
        logs := k_logs k;
        meta := k_meta k
      |}
  | locs => Raised (ValidationError locs)
  end.

(** [job.model_dump()]: the record's fields as a dictionary. *)
Definition model_dump (j : t) : gmap string pyval :=
  <["topic" := PStr (topic j)]>
  (<["trigger_phrase" := PStr (trigger_phrase j)]>
  (<["voice" := PStr (voice j)]>
  (<["style" := PStr (style j)]>
  (<["format" := PStr (format j)]>
  (<["status" := PStr (status j)]>
  (<["step" := of_opt_str (step j)]>
  (<["progress" := PInt (progress j)]>
  (<["script" := of_opt_str (script j)]>
  (<["voiceover_url" := of_opt_str (voiceover_url j)]>
  (<["broll_urls" := of_opt_str_list (broll_urls j)]>
  (<["final_url" := of_opt_str (final_url j)]>
  (<["logs" := of_opt_str_list (logs j)]>
  (<["meta" := match meta j with Some d => PDict d | None => PNone end]>
   ∅))))))))))))).

End VideoJob.

(** ** main.py: the payload models *)

Module GenerateVoicePayload.
Record t : Type := mk { script : string; voice : string }.
End GenerateVoicePayload.

Module GenerateBrollPayload.
Record t : Type := mk { scene_prompts : list string }.
End GenerateBrollPayload.

Module AutoEditPayload.
Record t : Type := mk {
  voiceover_url : string;
  broll_urls : list string;
  style : string;
  format : string
}.
End AutoEditPayload.

Module RunRequest.
Record t : Type := mk {
  trigger_phrase : string;
  topic : option string;
  voice : string;
  style : string;
  format : string
}.

(** [RunRequest(...)] from a request body: every field has a default and
    none carries a constraint, so nothing is refused. *)
Definition new (trigger_phrase' topic' voice' style' format' : option string) : t :=
  {| trigger_phrase := default "Create a full video automatically." trigger_phrase';
     topic := topic';
     voice := default "male_tech_voice" voice';
     style := default "tech_fastpaced" style';
     format := default "1080p" format' |}.
End RunRequest.

(** ** database.py: the record store *)

(** The two helpers [main.py] imports from [database.py].  Each takes the
    store as it is and leaves it as it becomes, whether it returns or
    raises. *)
Class RecordStore : Type := {
  store : Type;
  create_document : string → VideoJob.t → store → attempt string * store;
  get_documents : string → Z → store → attempt (list (gmap string pyval)) * store
}.

Module MemStore.

(** A document store held in memory: per collection the documents in the
    order they were inserted, each under the identifier it was given. *)
Record t : Type := mk {
  connected : bool;
  write_fails : bool;
  read_fails : bool;
  collections : gmap string (list (N * gmap string pyval));
  next_oid : N
}.

Definition collection (kind : string) (s : t) : list (N * gmap string pyval) :=
  default [] (collections s !! kind).

(** Modelled from the spec: [insert(kind, record) -> id] of the Record
    Store Adapter, whose code ([database.py]) is not among the sources.
    It serializes the record's fields under the collection [kind] and
    returns the newly assigned identifier; it fails with
    [StoreUnavailable] without a connection and with [StoreWriteError]
    when the underlying write fails, and then writes nothing. *)
Definition insert (kind : string) (record : VideoJob.t) (s : t)
  : attempt string * t :=
  if negb (connected s) then (Failed "StoreUnavailable", s)
  else if write_fails s then (Failed "StoreWriteError", s)
  else
    let oid := next_oid s in
    (Done (str (PObjectId oid)),
     {| connected := connected s;
        write_fails := write_fails s;
        read_fails := read_fails s;
        collections :=
          <[kind := (collection kind s ++ [(oid, VideoJob.model_dump record)])%list]>
            (collections s);
        next_oid := N.succ oid |}).

(** A stored document as a query hands it out: its fields and, under
    ["_id"], the identifier the store assigned. *)
Definition document (entry : N * gmap string pyval) : gmap string pyval :=
  <["_id" := PObjectId entry.1]> entry.2.

(** Modelled from the spec: [list(kind, limit) -> records] of the Record
    Store Adapter ([database.py] is not among the sources).  It returns
    up to [limit] records of the collection, in the store's own order,
    each with its store-assigned identifier; it fails with
    [StoreUnavailable] or [StoreReadError]. *)
Definition list (kind : string) (limit : Z) (s : t)
  : attempt (list (gmap string pyval)) * t :=
  if negb (connected s) then (Failed "StoreUnavailable", s)
  else if read_fails s then (Failed "StoreReadError", s)
  else (Done (document <$> take (Z.to_nat limit) (collection kind s)), s).

Definition empty : t := mk true false false ∅ 0%N.

(** The store can be reached and neither reads nor writes fail. *)
Definition available (s : t) : bool :=
  connected s && negb (write_fails s) && negb (read_fails s).

End MemStore.

#[export] Instance mem_store : RecordStore := {|
  store := MemStore.t;
  create_document := MemStore.insert;
  get_documents := MemStore.list
|}.

(** ** main.py *)

(** The dictionary each stub returns has one fixed key, and [run_pipeline]
    reads it back under that key: a record per stub.  The bodies the job
    endpoints and [run_pipeline] return stay dictionaries of values. *)

Module VoiceRes.
Record t : Type := mk { voiceover_url : string }.
End VoiceRes.

Module BrollRes.
Record t : Type := mk { broll_urls : list string }.
End BrollRes.

Module EditRes.
Record t : Type := mk { final_url : string }.
End EditRes.

(** What an endpoint did, in the order it did it: the action stubs it
    called and the store helpers it called. *)
Inductive event : Type :=
| GenerateVoice (payload : GenerateVoicePayload.t)
| GenerateBroll (payload : GenerateBrollPayload.t)
| AutoEdit (payload : AutoEditPayload.t)
| CreateDocument (collection_name : string) (data : VideoJob.t)
| GetDocuments (collection_name : string) (limit : Z).

Definition is_action (e : event) : bool :=
  match e with
  | GenerateVoice _ | GenerateBroll _ | AutoEdit _ => true
  | _ => false
  end.

Definition is_insert (e : event) : bool :=
  match e with CreateDocument _ _ => true | _ => false end.

Module Main.

(** The action stubs. *)

Definition action_generate_voice (payload : GenerateVoicePayload.t) : VoiceRes.t :=
  {| VoiceRes.voiceover_url := "https://example.com/voiceover.mp3" |}.

Definition broll_url (i : Z) : string :=
  "https://example.com/broll_" +:+ pretty i +:+ ".mp4".

Definition action_generate_broll (payload : GenerateBrollPayload.t) : BrollRes.t :=
  let urls :=
    (λ p, broll_url p.1) <$> enumerate 1 (GenerateBrollPayload.scene_prompts payload) in
  {| BrollRes.broll_urls := urls |}.

Definition action_auto_edit (payload : AutoEditPayload.t) : EditRes.t :=
  {| EditRes.final_url := "https://example.com/final_video.mp4" |}.

(** The constants of [run_pipeline]. *)

Definition trigger : string := "Create a full video automatically.".
Definition default_topic : string :=
  "Why AI copilots are changing software in 2025".

Definition trend_of (topic : string) : list (string * pyval) :=
  [ ("topic", PStr topic);
    ("why", PStr "Mass adoption in IDEs and office suites");
    ("viral_score", PInt 87);
    ("angle", PStr "Pros & cons with real examples") ].

Definition script_of (topic : string) : string :=
  "Title: " +:+ topic +:+ nl +:+ nl
  +:+ "Intro: In this video, we explore how AI copilots..." +:+ nl
  +:+ "..." +:+ nl +:+ "Conclusion: Subscribe for more!".

Definition scenes : list string :=
  [ "Developer coding with AI suggestions on screen";
    "Graph showing productivity improvements";
    "Security team reviewing AI-generated code" ].

Section WithStore.
Context `{RS : RecordStore}.

Record world : Type := World { w_store : store; w_log : list event }.

(** State (store and log) with exceptions. *)
Definition M (A : Type) : Type := world → outcome A * world.

Definition ret {A} (a : A) : M A := λ w, (Returned a, w).

Definition raise {A} (e : exn) : M A := λ w, (Raised e, w).

Definition bind {A B} (m : M A) (k : A → M B) : M B :=
  λ w, match m w with
       | (Returned a, w') => k a w'
       | (Raised e, w') => (Raised e, w')
       end.

Definition lift {A} (o : outcome A) : M A := λ w, (o, w).

Definition log (e : event) : M unit :=
  λ w, (Returned tt, {| w_store := w_store w; w_log := (w_log w ++ [e])%list |}).

(** A call of a store helper inside [try]: the handler gets what was
    raised, so the call itself hands back an [attempt]. *)
Definition try_store {A} (e : event) (op : store → attempt A * store)
  : M (attempt A) :=
  λ w, let '(r, s') := op (w_store w) in
       (Returned r, {| w_store := s'; w_log := (w_log w ++ [e])%list |}).

Notation "'let*' x ':=' m 'in' k" := (bind m (λ x, k))
  (at level 10, x name, m at level 100, k at level 200, only parsing).

(** A call of an action stub: noted in the log, then the stub's value. *)
Definition call {P R} (e : P → event) (stub : P → R) (payload : P) : M R :=
  let* _ := log (e payload) in ret (stub payload).

(** [POST /api/jobs] *)
Definition create_job (job : VideoJob.t) : M (gmap string pyval) :=
  let* r := try_store (CreateDocument "videojob" job)
                      (create_document "videojob" job) in
  match r with
  | Done job_id =>
      ret (<["id" := PStr job_id]> (<["status" := PStr (VideoJob.status job)]> ∅))
  | Failed msg => raise (HTTPException 500 msg)
  end.

(** The loop body of [list_jobs]:
    [if "_id" in d: d["id"] = str(d.pop("_id"))]. *)
Definition remap_id (d : gmap string pyval) : gmap string pyval :=
  match d !! "_id" with
  | Some v => <["id" := PStr (str v)]> (delete "_id" d)
  | None => d
  end.

(** [GET /api/jobs] *)
Definition list_jobs (limit : Z) : M (list (gmap string pyval)) :=
  let* r := try_store (GetDocuments "videojob" limit)
                      (get_documents "videojob" limit) in
  match r with
  | Done docs => ret (remap_id <$> docs)
  | Failed msg => raise (HTTPException 500 msg)
  end.

(** The [VideoJob(...)] call of [run_pipeline]. *)
Definition job_args (req : RunRequest.t) (topic script : string)
    (voice_res : VoiceRes.t) (broll_res : BrollRes.t) (edit_res : EditRes.t)
  : VideoJob.kwargs :=
  {| VideoJob.k_topic := Some topic;
     VideoJob.k_trigger_phrase := None;
     VideoJob.k_voice := Some (RunRequest.voice req);
     VideoJob.k_style := Some (RunRequest.style req);
     VideoJob.k_format := Some (RunRequest.format req);
     VideoJob.k_status := Some "completed";
     VideoJob.k_step := Some "Final MP4 Output";
     VideoJob.k_progress := Some 100;
     VideoJob.k_script := Some script;
     VideoJob.k_voiceover_url := Some (VoiceRes.voiceover_url voice_res);
     VideoJob.k_broll_urls := Some (BrollRes.broll_urls broll_res);
     VideoJob.k_final_url := Some (EditRes.final_url edit_res);
     VideoJob.k_logs := Some ["Pipeline executed (mock)"];
     VideoJob.k_meta := None |}.

(** [POST /api/run] *)
Definition run_pipeline (req : RunRequest.t) : M (gmap string pyval) :=
  if bool_decide (strip (RunRequest.trigger_phrase req) ≠ trigger)
  then raise (HTTPException 400 "Invalid trigger phrase")
  else
    (* 1) trend detection (mock) *)
    let topic := str_or (RunRequest.topic req) default_topic in
    let trend := trend_of topic in
    (* 2) script generation (mock) *)
    let script := script_of topic in
    (* 3) voiceover *)
    let* voice_res :=
      call GenerateVoice action_generate_voice
        (GenerateVoicePayload.mk script (RunRequest.voice req)) in
    (* 4) b-roll *)
    let* broll_res :=
      call GenerateBroll action_generate_broll (GenerateBrollPayload.mk scenes) in
    (* 5) auto edit *)
    let* edit_res :=
      call AutoEdit action_auto_edit
        (AutoEditPayload.mk (VoiceRes.voiceover_url voice_res)
           (BrollRes.broll_urls broll_res)
           (RunRequest.style req) (RunRequest.format req)) in
    (* 6) final output and persist job *)
    let* job :=
      lift (VideoJob.new (job_args req topic script voice_res broll_res edit_res)) in
    let* r := try_store (CreateDocument "videojob" job)
                        (create_document "videojob" job) in
    let job_id := match r with Done job_id => Some job_id | Failed _ => None end in
    ret (<["job_id" := of_opt_str job_id]>
        (<["trend" := PDict trend]>
        (<["script" := PStr script]>
        (<["voiceover_url" := PStr (VoiceRes.voiceover_url voice_res)]>
        (<["broll_urls" := of_str_list (BrollRes.broll_urls broll_res)]>
        (<["final_url" := PStr (EditRes.final_url edit_res)]> ∅)))))).

(** [POST /api/jobs] with its body: the framework builds the [VideoJob]
    from the body before [create_job] runs. *)
Definition post_jobs (body : VideoJob.kwargs) : M (gmap string pyval) :=
  let* job := lift (VideoJob.new body) in create_job job.

End WithStore.

End Main.

Import Main.

(** ** The events of one call *)

(** The events a computation adds to the log of the world it starts in. *)
Definition events_of `{RecordStore} {A} (m : M A) (w : world) : list event :=
  drop (length (w_log w)) (w_log (m w).2).

(** The topic [run_pipeline] works with. *)
Definition topic_of (req : RunRequest.t) : string :=
  str_or (RunRequest.topic req) default_topic.

(** The job [run_pipeline] hands to the store when the format passes. *)
Definition job_of (req : RunRequest.t) : VideoJob.t :=
  {| VideoJob.topic := topic_of req;
     VideoJob.trigger_phrase := "Create a full video automatically.";
     VideoJob.voice := RunRequest.voice req;
     VideoJob.style := RunRequest.style req;
     VideoJob.format := RunRequest.format req;
     VideoJob.status := "completed";
     VideoJob.step := Some "Final MP4 Output";
     VideoJob.progress := 100;
     VideoJob.script := Some (script_of (topic_of req));
     VideoJob.voiceover_url := Some "https://example.com/voiceover.mp3";
     VideoJob.broll_urls := Some [broll_url 1; broll_url 2; broll_url 3];
     VideoJob.final_url := Some "https://example.com/final_video.mp4";
     VideoJob.logs := Some ["Pipeline executed (mock)"];
     VideoJob.meta := None |}.

(** The three stub calls of a run, in order. *)
Definition stub_calls (req : RunRequest.t) : list event :=
  [ GenerateVoice (GenerateVoicePayload.mk (script_of (topic_of req)) (RunRequest.voice req));
    GenerateBroll (GenerateBrollPayload.mk scenes);
    AutoEdit (AutoEditPayload.mk "https://example.com/voiceover.mp3"
                [broll_url 1; broll_url 2; broll_url 3]
                (RunRequest.style req) (RunRequest.format req)) ].

(** The body [run_pipeline] returns, given the identifier it got. *)
Definition body_of (req : RunRequest.t) (job_id : option string) : gmap string pyval :=
  <["job_id" := of_opt_str job_id]>
  (<["trend" := PDict (trend_of (topic_of req))]>
  (<["script" := PStr (script_of (topic_of req))]>
  (<["voiceover_url" := PStr "https://example.com/voiceover.mp3"]>
  (<["broll_urls" := of_str_list [broll_url 1; broll_url 2; broll_url 3]]>
  (<["final_url" := PStr "https://example.com/final_video.mp4"]> ∅))))).

Definition id_of (r : attempt string) : option string :=
  match r with Done job_id => Some job_id | Failed _ => None end.

(** ** Sample worlds and requests *)

Definition fresh_world : world := World MemStore.empty [].

(** A store without a connection: every insert and every query raises. *)
Definition unreachable_world : world :=
  World (MemStore.mk false false false ∅ 0%N) [].

Definition rust_request : RunRequest.t :=
  RunRequest.new (Some ("  Create a full video automatically." +:+ nl))
    (Some "Rust") None None None.

Definition wrong_request : RunRequest.t :=
  RunRequest.new (Some "wrong") None None None None.

Definition fourk_request : RunRequest.t :=
  RunRequest.new None None None None (Some "4k").

Definition fourk_job : VideoJob.kwargs :=
  VideoJob.args (Some "Rust") None None None (Some "4k") None None None
    None None None None None None.

Definition queued_job : VideoJob.t :=
  VideoJob.mk "Rust" "Create a full video automatically." "alloy" "engaging"
    "16:9" "queued" None 0 None None None None None None.

(** A store that holds two job records. *)
Definition two_jobs_world : world :=
  World (MemStore.mk true false false
           (<["videojob" := [(0%N, <["topic" := PStr "Rust"]> ∅);
                             (1%N, <["topic" := PStr "Go"]> ∅)]]> ∅)
           2%N) [].

(** ** schemas.py: the [User] example schema *)

Module User.

Record t : Type := mk {
  name : string;
  email : string;
  address : string;
  age : option Z;
  is_active : bool
}.

(** The keyword arguments of [User(...)], each of its declared type;
    [None] stands for an argument left out (for [age], whose default is
    [None], also for an explicit [None]). *)
Record kwargs : Type := args {
  k_name : option string;
  k_email : option string;
  k_address : option string;
  k_age : option Z;
  k_is_active : option bool
}.

Definition errors (k : kwargs) : list string :=
  (VideoJob.required "name" (k_name k)
   ++ VideoJob.required "email" (k_email k)
   ++ VideoJob.required "address" (k_address k)
   ++ VideoJob.ge_le "age" 0 120 (k_age k))%list.

(** [User(...)] on keyword arguments [k]. *)
Definition new (k : kwargs) : outcome t :=
  match errors k with
  | [] =>
      Returned {|
        name := default "" (k_name k);
        email := default "" (k_email k);
        address := default "" (k_address k);
        age := k_age k;
        is_active := default true (k_is_active k)
      |}
  | locs => Raised (ValidationError locs)
  end.

End User.

(** ** main.py: the diagnostic endpoint *)

(** [s[:n]] *)
Fixpoint str_prefix (n : nat) (s : string) : string :=
  match n, s with
  | S n', String c s' => String c (str_prefix n' s')
  | _, _ => EmptyString
  end.

(** Whether every character of [s] is whitespace. *)
Fixpoint all_space (s : string) : bool :=
  match s with
  | String c s' => is_space c && all_space s'
  | EmptyString => true
  end.

Module Db.

(** The [db] object of [database.py] as [test_database] uses it.  [name]
    is [None] when [hasattr(db, 'name')] is false, and otherwise what
    reading the attribute gives (a value, or an exception that is not an
    [AttributeError]); [list_collection_names] is what the call gives. *)
Record t : Type := mk {
  name : option (attempt pyval);
  list_collection_names : attempt (list string)
}.

End Db.

(** The status texts.  Their marks lie outside the code points a
    character of [string] stands for; each text is kept as the bytes of
    its UTF-8 form, and nothing below looks inside one. *)
Definition backend_running : string := "✅ Running".
Definition db_not_available : string := "❌ Not Available".
Definition db_available : string := "✅ Available".
Definition db_configured : string := "✅ Configured".
Definition db_connected : string := "✅ Connected".
Definition db_working : string := "✅ Connected & Working".
Definition db_connected_error : string := "⚠️  Connected but Error: ".
Definition db_not_initialized : string := "⚠️  Available but not initialized".
Definition db_error : string := "❌ Error: ".
Definition env_set : string := "✅ Set".
Definition env_not_set : string := "❌ Not Set".

(** The truth value of [os.getenv(key)]: unset and empty are falsy. *)
Definition env_truthy (v : option string) : bool :=
  match v with
  | Some s => negb (bool_decide (s = ""))
  | None => false
  end.

(** [GET /test], given the [db] object ([None] when the store was not
    initialised) and the process environment. *)
Definition test_database (db : option Db.t) (getenv : string → option string)
  : gmap string pyval :=
  let response : gmap string pyval :=
    <["backend" := PStr backend_running]>
    (<["database" := PStr db_not_available]>
    (<["database_url" := PNone]>
    (<["database_name" := PNone]>
    (<["connection_status" := PStr "Not Connected"]>
    (<["collections" := PList []]> ∅))))) in
  let response :=
    match db with
    | Some db =>
        let response := <["database" := PStr db_available]> response in
        let response := <["database_url" := PStr db_configured]> response in
        match Db.name db with
        | Some (Failed msg) =>
            (* the outer handler *)
            <["database" := PStr (db_error +:+ str_prefix 50 msg)]> response
        | name =>
            let response :=
              <["database_name" :=
                  match name with Some (Done v) => v | _ => PStr db_connected end]>
                response in
            let response := <["connection_status" := PStr "Connected"]> response in
            match Db.list_collection_names db with
            | Done collections =>
                let response :=
                  <["collections" := of_str_list (take 10 collections)]> response in
                <["database" := PStr db_working]> response
            | Failed msg =>
                <["database" := PStr (db_connected_error +:+ str_prefix 50 msg)]>
                  response
            end
        end
    | None => <["database" := PStr db_not_initialized]> response
    end in
  let response :=
    <["database_url" :=
        PStr (if env_truthy (getenv "DATABASE_URL") then env_set else env_not_set)]>
      response in
  <["database_name" :=
      PStr (if env_truthy (getenv "DATABASE_NAME") then env_set else env_not_set)]>
    response.

(** The URLs [action_generate_broll] gives for a list of prompts. *)
Definition broll_urls_for (scene_prompts : list string) : list string :=
  BrollRes.broll_urls (action_generate_broll (GenerateBrollPayload.mk scene_prompts)).

(** The same names when numbering starts at [start]. *)
Definition broll_urls_from (start : Z) (scene_prompts : list string) : list string :=
  (λ p, broll_url p.1) <$> enumerate start scene_prompts.

(** ** More sample inputs *)

Definition failing_db : Db.t :=
  Db.mk (Some (Done (PStr "videos")))
    (Failed "connection refused by the server at 10.0.0.1:27017 after 30 s").

Definition busy_db : Db.t :=
  Db.mk None
    (Done ["a"; "b"; "c"; "d"; "e"; "f"; "g"; "h"; "i"; "j"; "k"; "l"]).

Definition sample_env (key : string) : option string :=
  if bool_decide (key = "DATABASE_URL") then Some "mongodb://localhost"
  else if bool_decide (key = "DATABASE_NAME") then Some ""
  else None.

Definition teen_user : User.kwargs :=
  User.args (Some "Ada") (Some "ada@example.com") (Some "1 Main St") (Some 15) None.

Definition completed_job_args : VideoJob.kwargs :=
  VideoJob.args (Some "Rust") None None None (Some "9:16") (Some "completed")
    None (Some 40) None None None None None None.

Definition stored_doc : gmap string pyval :=
  <["_id" := PObjectId 7]> (<["id" := PStr "old"]> (<["topic" := PStr "Rust"]> ∅)).

(** ** Stepping through [run_pipeline] *)

Section Run.
Context `{RS : RecordStore}.

Lemma job_args_errors req topic script vr br er :
  VideoJob.errors (job_args req topic script vr br er)
  = if bool_decide (RunRequest.format req ∈ VideoJob.format_literals)
    then [] else ["format"].
Proof.
  unfold VideoJob.errors, job_args; simpl.
  destruct (bool_decide _); reflexivity.
Qed.

Lemma new_job_args req topic script vr br er :
  VideoJob.new (job_args req topic script vr br er)
  = if bool_decide (RunRequest.format req ∈ VideoJob.format_literals)
    then Returned
           {| VideoJob.topic := topic;
              VideoJob.trigger_phrase := "Create a full video automatically.";
              VideoJob.voice := RunRequest.voice req;
              VideoJob.style := RunRequest.style req;
              VideoJob.format := RunRequest.format req;
              VideoJob.status := "completed";
              VideoJob.step := Some "Final MP4 Output";
              VideoJob.progress := 100;
              VideoJob.script := Some script;
              VideoJob.voiceover_url := Some (VoiceRes.voiceover_url vr);
              VideoJob.broll_urls := Some (BrollRes.broll_urls br);
              VideoJob.final_url := Some (EditRes.final_url er);
              VideoJob.logs := Some ["Pipeline executed (mock)"];
              VideoJob.meta := None |}
    else Raised (ValidationError ["format"]).
Proof.
  unfold VideoJob.new. rewrite job_args_errors.
  destruct (bool_decide _); reflexivity.
Qed.

Lemma run_pipeline_rejects req w :
  strip (RunRequest.trigger_phrase req) ≠ trigger →
  run_pipeline req w = (Raised (HTTPException 400 "Invalid trigger phrase"), w).
Proof.
  intros Hne. unfold run_pipeline.
  rewrite bool_decide_eq_true_2 by exact Hne. reflexivity.
Qed.

Lemma run_pipeline_runs req w :
  strip (RunRequest.trigger_phrase req) = trigger →
  run_pipeline req w =
    let w3 := World (w_store w) (w_log w ++ stub_calls req) in
    if bool_decide (RunRequest.format req ∈ VideoJob.format_literals)
    then
      let r := create_document "videojob" (job_of req) (w_store w) in
      (Returned (body_of req (id_of r.1)),
       World r.2 (w_log w3 ++ [CreateDocument "videojob" (job_of req)]))
    else (Raised (ValidationError ["format"]), w3).
Proof.
  intros Heq. unfold run_pipeline.
  rewrite bool_decide_eq_false_2 by (intros Hne; exact (Hne Heq)).
  destruct w as [s l].
  cbv beta iota zeta delta [bind call log ret lift try_store].
  cbn [w_store w_log]. rewrite new_job_args.
  replace (((l ++ _) ++ _) ++ _)%list with (l ++ stub_calls req)%list
    by (unfold stub_calls; rewrite <- !(assoc_L app); reflexivity).
  destruct (bool_decide _); [|reflexivity].
  cbn [w_store w_log].
  change (VideoJob.mk _ _ _ _ _ _ _ _ _ _ _ _ _ _) with (job_of req).
  destruct (create_document "videojob" (job_of req) s) as [r s'].
  destruct r; reflexivity.
Qed.

Lemma events_of_same {A} (m : M A) w : (m w).2 = w → events_of m w = [].
Proof. intros E. unfold events_of. rewrite E. apply drop_all. Qed.

Lemma events_of_app {A} (m : M A) w evs :
  w_log (m w).2 = (w_log w ++ evs)%list → events_of m w = evs.
Proof. intros E. unfold events_of. rewrite E. apply drop_app_length. Qed.

Lemma run_pipeline_events req w :
  events_of (run_pipeline req) w =
    if bool_decide (strip (RunRequest.trigger_phrase req) ≠ trigger) then []
    else if bool_decide (RunRequest.format req ∈ VideoJob.format_literals)
         then (stub_calls req ++ [CreateDocument "videojob" (job_of req)])%list
         else stub_calls req.
Proof.
  case_bool_decide as Ht.
  - apply events_of_same. rewrite run_pipeline_rejects by exact Ht. reflexivity.
  - apply events_of_app.
    rewrite (run_pipeline_runs _ _ Ht). cbv zeta.
    case_bool_decide; cbn [snd w_log]; [|reflexivity].
    symmetry. apply (assoc_L app).
Qed.

Lemma body_of_lookups req job_id :
  body_of req job_id !! "job_id" = Some (of_opt_str job_id)
  ∧ body_of req job_id !! "trend" = Some (PDict (trend_of (topic_of req)))
  ∧ body_of req job_id !! "script" = Some (PStr (script_of (topic_of req)))
  ∧ body_of req job_id !! "voiceover_url"
    = Some (PStr "https://example.com/voiceover.mp3")
  ∧ body_of req job_id !! "broll_urls"
    = Some (PList [PStr (broll_url 1); PStr (broll_url 2); PStr (broll_url 3)])
  ∧ body_of req job_id !! "final_url"
    = Some (PStr "https://example.com/final_video.mp4").
Proof. unfold body_of. repeat split; by simplify_map_eq. Qed.

End Run.

(** ** The pipeline runner, for any record store *)

Section Pipeline.
Context `{RS : RecordStore}.

(** C2: [run_pipeline] fails with the 400 [HTTPException] ("Invalid
    trigger phrase") exactly when the stripped trigger phrase differs from
    "Create a full video automatically."; on such a mismatch the world is
    left as it was: no action stub is called and no insert is made. *)
Theorem run_pipeline_invalid_trigger (req : RunRequest.t) (w : world) :
  ((∃ detail, (run_pipeline req w).1 = Raised (HTTPException 400 detail))
   ↔ strip (RunRequest.trigger_phrase req) ≠ "Create a full video automatically.")
  ∧ (strip (RunRequest.trigger_phrase req) ≠ "Create a full video automatically." →
     run_pipeline req w = (Raised (HTTPException 400 "Invalid trigger phrase"), w)
     ∧ events_of (run_pipeline req) w = []).
Proof.
  split; [split|].
  - intros [detail E] Heq.
    rewrite (run_pipeline_runs _ _ Heq) in E. cbv zeta in E.
    case_bool_decide; discriminate E.
  - intros Hne. exists "Invalid trigger phrase".
    rewrite run_pipeline_rejects by exact Hne. reflexivity.
  - intros Hne. split; [exact (run_pipeline_rejects _ _ Hne)|].
    apply events_of_same. rewrite run_pipeline_rejects by exact Hne. reflexivity.
Qed.

(** C10: with a valid trigger phrase and a format outside the four
    literals, [run_pipeline] raises pydantic's [ValidationError] on
    [format] while building the job: the three action stubs have been
    called, in order, the store has not been called or changed, and no
    body is returned.  [RunRequest] itself takes any string as format. *)
Theorem run_pipeline_unknown_format (req : RunRequest.t) (w : world) :
  strip (RunRequest.trigger_phrase req) = "Create a full video automatically." →
  RunRequest.format req ∉ ["1080p"; "9:16"; "16:9"; "square"] →
  run_pipeline req w
  = (Raised (ValidationError ["format"]),
     World (w_store w) (w_log w ++ stub_calls req))
  ∧ (is_action <$> events_of (run_pipeline req) w) = [true; true; true]
  ∧ filter (λ e, is_insert e = true) (events_of (run_pipeline req) w) = []
  ∧ (∀ tp topic voice style f,
       RunRequest.format (RunRequest.new tp topic voice style (Some f)) = f).
Proof.
  intros Heq Hfmt.
  assert (E : run_pipeline req w
              = (Raised (ValidationError ["format"]),
                 World (w_store w) (w_log w ++ stub_calls req))).
  { rewrite (run_pipeline_runs _ _ Heq). cbv zeta.
    rewrite bool_decide_eq_false_2 by exact Hfmt. reflexivity. }
  assert (Ev : events_of (run_pipeline req) w = stub_calls req).
  { apply events_of_app. rewrite E. reflexivity. }
  rewrite Ev. repeat split; try reflexivity. exact E.
Qed.

(** C1: for a request with a valid trigger phrase, when the run reaches
    its insert and the insert raises, the exception is swallowed: the run
    returns a body whose [job_id] is [None] and whose [script],
    [voiceover_url], [broll_urls] and [final_url] are the generated
    values.  A run never raises because of the store: all it can raise is
    the [ValidationError] on an unknown format, and then the store has not
    been called. *)
Theorem run_pipeline_store_failure (req : RunRequest.t) (w : world) :
  strip (RunRequest.trigger_phrase req) = "Create a full video automatically." →
  (∀ job msg,
     last (events_of (run_pipeline req) w) = Some (CreateDocument "videojob" job) →
     (create_document "videojob" job (w_store w)).1 = Failed msg →
     ∃ r, (run_pipeline req w).1 = Returned r
          ∧ r !! "job_id" = Some PNone
          ∧ r !! "script" = Some (PStr (script_of (topic_of req)))
          ∧ r !! "voiceover_url" = Some (PStr "https://example.com/voiceover.mp3")
          ∧ r !! "broll_urls"
            = Some (PList [PStr "https://example.com/broll_1.mp4";
                           PStr "https://example.com/broll_2.mp4";
                           PStr "https://example.com/broll_3.mp4"])
          ∧ r !! "final_url" = Some (PStr "https://example.com/final_video.mp4"))
  ∧ (∀ e, (run_pipeline req w).1 = Raised e →
          e = ValidationError ["format"]
          ∧ (RunRequest.format req ∉ VideoJob.format_literals)
          ∧ w_store (run_pipeline req w).2 = w_store w
          ∧ filter (λ ev, is_insert ev = true) (events_of (run_pipeline req) w) = []).
Proof.
  intros Heq. split.
  - intros job msg Hlast Hfail.
    rewrite run_pipeline_events in Hlast.
    rewrite bool_decide_eq_false_2 in Hlast by (intros Hne; exact (Hne Heq)).
    rewrite (run_pipeline_runs _ _ Heq). cbv zeta.
    case_bool_decide as Hfmt.
    + rewrite last_snoc in Hlast. injection Hlast as <-.
      rewrite Hfail. eexists; split; [reflexivity|].
      destruct (body_of_lookups req None) as (? & ? & ? & ? & ? & ?).
      repeat split; assumption.
    + discriminate Hlast.
  - intros e E. rewrite run_pipeline_events.
    rewrite bool_decide_eq_false_2 by (intros Hne; exact (Hne Heq)).
    rewrite (run_pipeline_runs _ _ Heq) in E |- *. cbv zeta in E |- *.
    case_bool_decide as Hfmt; [discriminate E|].
    injection E as <-.
    split; [reflexivity|split; [exact Hfmt|split; reflexivity]].
Qed.

(** C8: every job [run_pipeline] builds has status "completed", step
    "Final MP4 Output" and progress 100, whatever the request; so has
    every job a run hands to the store, which is never queued, running or
    failed. *)
Theorem run_pipeline_job_completed (req : RunRequest.t) (w : world) :
  (∀ topic script voice_res broll_res edit_res job,
     VideoJob.new (job_args req topic script voice_res broll_res edit_res)
     = Returned job →
     VideoJob.status job = "completed"
     ∧ VideoJob.step job = Some "Final MP4 Output"
     ∧ VideoJob.progress job = 100)
  ∧ (∀ kind job,
       CreateDocument kind job ∈ events_of (run_pipeline req) w →
       VideoJob.status job = "completed"
       ∧ VideoJob.step job = Some "Final MP4 Output"
       ∧ VideoJob.progress job = 100
       ∧ VideoJob.status job ∉ ["queued"; "running"; "failed"]).
Proof.
  split.
  - intros topic script vr br er job E. rewrite new_job_args in E.
    case_bool_decide; [|discriminate E]. injection E as <-. done.
  - intros kind job Hin. rewrite run_pipeline_events in Hin.
    assert (job = job_of req) as ->.
    { repeat case_bool_decide; unfold stub_calls in Hin;
        repeat (apply elem_of_app in Hin as [Hin|Hin]
                || apply elem_of_cons in Hin as [Hin|Hin]
                || apply elem_of_nil in Hin);
        try discriminate Hin; try contradiction.
      by injection Hin. }
    clear Hin. repeat split. cbn. intros Hin.
    repeat (apply elem_of_cons in Hin as [Hin|Hin]); try discriminate Hin.
    by apply elem_of_nil in Hin.
Qed.

End Pipeline.

(** ** Strings *)

Lemma startswith_app (p s : string) : startswith p (p +:+ s) = true.
Proof.
  induction p as [|a p IH]; [reflexivity|].
  change (String a p +:+ s) with (String a (p +:+ s)). cbn.
  destruct (decide (a = a)); [exact IH|congruence].
Qed.

Lemma contains_eq (needle hay : string) :
  contains needle hay
  = startswith needle hay
    || match hay with String _ hay' => contains needle hay' | EmptyString => false end.
Proof. destruct hay; reflexivity. Qed.

Lemma contains_app (pre needle post : string) :
  contains needle (pre +:+ needle +:+ post) = true.
Proof.
  induction pre as [|a pre IH].
  - change ("" +:+ needle +:+ post) with (needle +:+ post).
    rewrite contains_eq, startswith_app. reflexivity.
  - change (String a pre +:+ needle +:+ post)
      with (String a (pre +:+ needle +:+ post)).
    rewrite contains_eq, IH. apply orb_true_r.
Qed.

Lemma length_app (a b : string) :
  String.length (a +:+ b) = (String.length a + String.length b)%nat.
Proof.
  induction a as [|c a IH]; [reflexivity|].
  change (String c a +:+ b) with (String c (a +:+ b)). cbn. by rewrite IH.
Qed.

Lemma app_cancel_r (a b s : string) : a +:+ s = b +:+ s → a = b.
Proof.
  intros E.
  assert (L : String.length a = String.length b).
  { apply (f_equal String.length) in E. rewrite !length_app in E. lia. }
  revert b E L. induction a as [|c a IH]; intros [|d b] E L;
    try discriminate L; [reflexivity|].
  change (String c (a +:+ s) = String d (b +:+ s)) in E.
  injection E as -> E. f_equal. apply IH; [exact E|].
  cbn in L. lia.
Qed.

Lemma broll_url_inj : Inj (=) (=) broll_url.
Proof.
  intros i j E. unfold broll_url in E.
  apply (inj (String.app _)) in E. apply app_cancel_r in E.
  exact (inj pretty _ _ E).
Qed.

(** ** The action stubs *)

Lemma enumerate_length {A} (l : list A) start : length (enumerate start l) = length l.
Proof. revert start; induction l as [|x l IH]; intros start; cbn; [|rewrite IH]; done. Qed.

Lemma enumerate_lookup {A} (l : list A) start (i : nat) x :
  l !! i = Some x → enumerate start l !! i = Some (start + Z.of_nat i, x).
Proof.
  revert start i; induction l as [|y l IH]; intros start [|i] E; try discriminate E.
  - cbn in *. injection E as ->. do 2 f_equal. lia.
  - change (enumerate (start + 1) l !! i = Some (start + Z.of_nat (S i), x)).
    rewrite (IH (start + 1) i E). do 2 f_equal. lia.
Qed.

(** C3: for every list of scene prompts, [action_generate_broll] returns
    exactly as many URLs, the URL at position [i] (counting from 0) being
    the one named with [i + 1], so names start at 1 and follow the order
    of the prompts; no two positions share a URL. *)
Theorem generate_broll_one_url_per_prompt (scene_prompts : list string) :
  let urls :=
    BrollRes.broll_urls
      (action_generate_broll (GenerateBrollPayload.mk scene_prompts)) in
  length urls = length scene_prompts
  ∧ (∀ (i : nat) prompt, scene_prompts !! i = Some prompt →
       urls !! i
       = Some ("https://example.com/broll_" +:+ pretty (Z.of_nat i + 1) +:+ ".mp4"))
  ∧ NoDup urls.
Proof.
  cbv zeta. cbn [action_generate_broll BrollRes.broll_urls
                 GenerateBrollPayload.scene_prompts].
  assert (L : ∀ (i : nat) prompt, scene_prompts !! i = Some prompt →
              ((λ p : Z * string, broll_url p.1) <$> enumerate 1 scene_prompts) !! i
              = Some (broll_url (Z.of_nat i + 1))).
  { intros i prompt E. rewrite list_lookup_fmap.
    rewrite (enumerate_lookup _ _ _ _ E). cbn. f_equal. f_equal. lia. }
  split; [|split].
  - rewrite length_fmap. apply enumerate_length.
  - exact L.
  - apply NoDup_alt. intros i j u Ei Ej.
    destruct (lookup_lt_is_Some_2 scene_prompts i) as [pi Hi].
    { apply lookup_lt_Some in Ei.
      rewrite length_fmap, enumerate_length in Ei. exact Ei. }
    destruct (lookup_lt_is_Some_2 scene_prompts j) as [pj Hj].
    { apply lookup_lt_Some in Ej.
      rewrite length_fmap, enumerate_length in Ej. exact Ej. }
    rewrite (L _ _ Hi) in Ei. rewrite (L _ _ Hj) in Ej.
    assert (E : broll_url (Z.of_nat i + 1) = broll_url (Z.of_nat j + 1))
      by congruence.
    apply broll_url_inj in E. lia.
Qed.

(** ** The job model *)

Section Jobs.
Context `{RS : RecordStore}.

Lemma new_returned k job :
  VideoJob.new k = Returned job →
  VideoJob.errors k = []
  ∧ VideoJob.format job = default "16:9" (VideoJob.k_format k)
  ∧ VideoJob.progress job = default 0 (VideoJob.k_progress k).
Proof.
  unfold VideoJob.new. destruct (VideoJob.errors k); [|discriminate].
  intros E. injection E as <-. done.
Qed.

Lemma new_raised k loc :
  loc ∈ VideoJob.errors k →
  VideoJob.new k = Raised (ValidationError (VideoJob.errors k)).
Proof.
  unfold VideoJob.new. destruct (VideoJob.errors k); [|reflexivity].
  intros H. by apply elem_of_nil in H.
Qed.

(** C7: a [VideoJob] that was built has its progress within 0..100 and
    its format among the four literals; building one with a format
    outside them, or a progress outside 0..100, raises the
    [ValidationError] naming that field, and then [POST /api/jobs] raises
    it without calling the store. *)
Theorem VideoJob_progress_and_format (k : VideoJob.kwargs) :
  (∀ job, VideoJob.new k = Returned job →
     (0 ≤ VideoJob.progress job ≤ 100)%Z
     ∧ VideoJob.format job ∈ ["1080p"; "9:16"; "16:9"; "square"])
  ∧ (∀ f, VideoJob.k_format k = Some f →
       f ∉ ["1080p"; "9:16"; "16:9"; "square"] →
       ∃ locs, VideoJob.new k = Raised (ValidationError locs) ∧ "format" ∈ locs)
  ∧ (∀ p, VideoJob.k_progress k = Some p → (p < 0 ∨ 100 < p)%Z →
       ∃ locs, VideoJob.new k = Raised (ValidationError locs) ∧ "progress" ∈ locs)
  ∧ (∀ e w, VideoJob.new k = Raised e → post_jobs k w = (Raised e, w)).
Proof.
  split; [|split; [|split]].
  - intros job E. apply new_returned in E as (Herr & -> & ->).
    unfold VideoJob.errors in Herr.
    apply app_eq_nil in Herr as [_ Herr].
    apply app_eq_nil in Herr as [Hf Herr].
    apply app_eq_nil in Herr as [_ Hp].
    split.
    + destruct (VideoJob.k_progress k) as [p|]; cbn in *; [|lia].
      destruct (bool_decide (0 ≤ p)%Z) eqn:E1; [|discriminate Hp].
      destruct (bool_decide (p ≤ 100)%Z) eqn:E2; [|discriminate Hp].
      apply bool_decide_eq_true in E1, E2. lia.
    + destruct (VideoJob.k_format k) as [f|]; cbn in *.
      * case_bool_decide; [assumption|discriminate Hf].
      * apply list_elem_of_In. cbn. tauto.
  - intros f Ef Hf.
    assert (Hin : "format" ∈ VideoJob.errors k).
    { unfold VideoJob.errors. rewrite Ef. cbn.
      rewrite bool_decide_eq_false_2 by exact Hf.
      apply elem_of_app; right. apply elem_of_app; left. apply elem_of_cons; by left. }
    eexists. split; [exact (new_raised _ _ Hin)|exact Hin].
  - intros p Ep Hp.
    assert (Hin : "progress" ∈ VideoJob.errors k).
    { unfold VideoJob.errors. rewrite Ep. cbn.
      assert (bool_decide (0 ≤ p)%Z && bool_decide (p ≤ 100)%Z = false) as ->.
      { destruct Hp; [rewrite (bool_decide_eq_false_2 (0 ≤ p)%Z) by lia; reflexivity|].
        rewrite (bool_decide_eq_false_2 (p ≤ 100)%Z) by lia. apply andb_false_r. }
      apply elem_of_app; right. apply elem_of_app; right.
      apply elem_of_app; right. apply elem_of_cons; by left. }
    eexists. split; [exact (new_raised _ _ Hin)|exact Hin].
  - intros e w E. unfold post_jobs, bind, lift. rewrite E. reflexivity.
Qed.

End Jobs.

(** ** Topic resolution *)

Section Topic.
Context `{RS : RecordStore}.

Lemma topic_of_supplied req X :
  RunRequest.topic req = Some X → X ≠ "" → topic_of req = X.
Proof.
  intros E HX. unfold topic_of, str_or. rewrite E.
  destruct (decide (X = "")); [contradiction|reflexivity].
Qed.

Lemma topic_of_default req :
  RunRequest.topic req = None ∨ RunRequest.topic req = Some "" →
  topic_of req = default_topic.
Proof. intros [E|E]; unfold topic_of, str_or; rewrite E; reflexivity. Qed.

(** C4: the topic [run_pipeline] works with is the supplied one when it is
    there and not empty, and "Why AI copilots are changing software in
    2025" otherwise.  With a valid trigger phrase, a body that is returned
    has that topic under [trend]["topic"] and a script that contains it;
    a body is returned whenever the format is one of the four literals. *)
Theorem run_pipeline_topic (req : RunRequest.t) (w : world) :
  strip (RunRequest.trigger_phrase req) = "Create a full video automatically." →
  (RunRequest.format req ∈ VideoJob.format_literals →
   ∃ r w', run_pipeline req w = (Returned r, w'))
  ∧ (∀ r w', run_pipeline req w = (Returned r, w') →
     ∃ used trend script,
       (∀ X, RunRequest.topic req = Some X → X ≠ "" → used = X)
       ∧ (RunRequest.topic req = None ∨ RunRequest.topic req = Some "" →
          used = "Why AI copilots are changing software in 2025")
       ∧ r !! "trend" = Some trend
       ∧ getitem trend "topic" = Some (PStr used)
       ∧ r !! "script" = Some (PStr script)
       ∧ contains used script = true).
Proof.
  intros Heq. rewrite (run_pipeline_runs _ _ Heq). cbv zeta. split.
  - intros Hfmt. rewrite bool_decide_eq_true_2 by exact Hfmt. eauto.
  - intros r w' E. case_bool_decide; [|discriminate E].
    injection E as <- _.
    destruct (body_of_lookups req
                (id_of (create_document "videojob" (job_of req) (w_store w)).1))
      as (_ & Ht & Hs & _).
    exists (topic_of req), (PDict (trend_of (topic_of req))),
      (script_of (topic_of req)).
    split; [intros X; apply topic_of_supplied|].
    split; [apply topic_of_default|].
    split; [exact Ht|]. split; [reflexivity|]. split; [exact Hs|].
    unfold script_of. apply contains_app.
Qed.

End Topic.

(** ** The job endpoints over the in-memory store *)

Section CreateJob.
Context `{RS : RecordStore}.

Lemma create_job_runs (job : VideoJob.t) (w : world) :
  create_job job w =
    let r := create_document "videojob" job (w_store w) in
    (match r.1 with
     | Done job_id =>
         Returned (<["id" := PStr job_id]>
                   (<["status" := PStr (VideoJob.status job)]> ∅))
     | Failed msg => Raised (HTTPException 500 msg)
     end,
     World r.2 (w_log w ++ [CreateDocument "videojob" job])).
Proof.
  unfold create_job, bind, try_store. cbv zeta.
  destruct (create_document "videojob" job (w_store w)) as [[job_id|msg] s'];
    reflexivity.
Qed.

Lemma list_jobs_runs (limit : Z) (w : world) :
  list_jobs limit w =
    let r := get_documents "videojob" limit (w_store w) in
    (match r.1 with
     | Done docs => Returned (remap_id <$> docs)
     | Failed msg => Raised (HTTPException 500 msg)
     end,
     World r.2 (w_log w ++ [GetDocuments "videojob" limit])).
Proof.
  unfold list_jobs, bind, try_store. cbv zeta.
  destruct (get_documents "videojob" limit (w_store w)) as [[docs|msg] s'];
    reflexivity.
Qed.

End CreateJob.

Lemma insert_failed kind job s msg s' :
  MemStore.insert kind job s = (Failed msg, s') → s' = s.
Proof.
  unfold MemStore.insert.
  destruct (negb (MemStore.connected s)); [congruence|].
  destruct (MemStore.write_fails s); congruence.
Qed.

Lemma insert_done kind job s job_id s' :
  MemStore.insert kind job s = (Done job_id, s') →
  job_id = str (PObjectId (MemStore.next_oid s))
  ∧ MemStore.next_oid s' = N.succ (MemStore.next_oid s)
  ∧ MemStore.collection kind s'
    = (MemStore.collection kind s
       ++ [(MemStore.next_oid s, VideoJob.model_dump job)])%list
  ∧ MemStore.available s' = MemStore.available s.
Proof.
  unfold MemStore.insert.
  destruct (negb (MemStore.connected s)); [discriminate|].
  destruct (MemStore.write_fails s) eqn:Hw; [discriminate|].
  intros E. injection E as <- <-.
  split; [reflexivity|]. split; [reflexivity|]. split.
  - unfold MemStore.collection at 1. cbn. by rewrite lookup_insert_eq.
  - unfold MemStore.available. cbn. by rewrite Hw.
Qed.

Lemma insert_available kind job s :
  MemStore.available s = true →
  ∃ s', MemStore.insert kind job s
        = (Done (str (PObjectId (MemStore.next_oid s))), s').
Proof.
  unfold MemStore.available, MemStore.insert.
  destruct (MemStore.connected s), (MemStore.write_fails s); cbn;
    try discriminate; eauto.
Qed.

(** C5: [create_job] lets a store failure through.  When the write
    raises, it raises the 500 [HTTPException] carrying the message and the
    store holds exactly what it held (no record, not even in part); when
    the write succeeds it returns the identifier the store has just given
    to the record, with the job's status. *)
Theorem create_job_store_failure (job : VideoJob.t) (w : world) :
  (∀ msg s',
     create_document "videojob" job (w_store w) = (Failed msg, s') →
     (create_job job w).1 = Raised (HTTPException 500 msg)
     ∧ w_store (create_job job w).2 = w_store w)
  ∧ (∀ job_id s',
       create_document "videojob" job (w_store w) = (Done job_id, s') →
       ∃ r, (create_job job w).1 = Returned r
            ∧ r !! "id" = Some (PStr job_id)
            ∧ r !! "status" = Some (PStr (VideoJob.status job))
            ∧ job_id = str (PObjectId (MemStore.next_oid (w_store w)))
            ∧ MemStore.collection "videojob" (w_store (create_job job w).2)
              = (MemStore.collection "videojob" (w_store w)
                 ++ [(MemStore.next_oid (w_store w), VideoJob.model_dump job)])%list).
Proof.
  split.
  - intros msg s' E. rewrite create_job_runs. cbv zeta. rewrite E. cbn.
    split; [reflexivity|]. exact (insert_failed _ _ _ _ _ E).
  - intros job_id s' E. rewrite create_job_runs. cbv zeta. rewrite E. cbn.
    apply insert_done in E as (Hid & _ & Hcoll & _).
    eexists. split; [reflexivity|].
    split; [by simplify_map_eq|]. split; [by simplify_map_eq|].
    split; assumption.
Qed.

(** What the loop of [list_jobs] does to one document, for any store. *)
Lemma remap_id_moves_key (d : gmap string pyval) :
  (∀ v, d !! "_id" = Some v →
     remap_id d !! "id" = Some (PStr (str v)) ∧ remap_id d !! "_id" = None)
  ∧ (d !! "_id" = None → remap_id d = d).
Proof.
  unfold remap_id. split.
  - intros v ->. split; [apply lookup_insert_eq|].
    rewrite lookup_insert_ne by discriminate. apply lookup_delete_eq.
  - intros ->. reflexivity.
Qed.

Lemma remap_document oid fields :
  remap_id (MemStore.document (oid, fields)) !! "id"
  = Some (PStr (str (PObjectId oid)))
  ∧ remap_id (MemStore.document (oid, fields)) !! "_id" = None.
Proof.
  unfold remap_id, MemStore.document. cbn [fst snd].
  rewrite lookup_insert_eq. split.
  - apply lookup_insert_eq.
  - rewrite lookup_insert_ne by discriminate. apply lookup_delete_eq.
Qed.

(** C6: for a limit [N ≥ 0], [list_jobs] returns at most [N] records,
    and each of them carries under "id" the string of the identifier the
    store keeps for it, moved there from "_id".  With a store that can be
    read it does return. *)
Theorem list_jobs_at_most_limit (limit : Z) (w : world) :
  (0 ≤ limit)%Z →
  (MemStore.connected (w_store w) = true →
   MemStore.read_fails (w_store w) = false →
   ∃ docs w', list_jobs limit w = (Returned docs, w'))
  ∧ (∀ docs w', list_jobs limit w = (Returned docs, w') →
       (Z.of_nat (length docs) ≤ limit)%Z
       ∧ ∀ (i : nat) d, docs !! i = Some d →
           ∃ oid fields,
             MemStore.collection "videojob" (w_store w) !! i = Some (oid, fields)
             ∧ d !! "id" = Some (PStr (str (PObjectId oid)))
             ∧ d !! "_id" = None).
Proof.
  intros Hlimit. rewrite list_jobs_runs. cbv zeta.
  cbn [get_documents mem_store]. unfold MemStore.list. split.
  - intros -> ->. cbn. eauto.
  - intros docs w' E.
    destruct (negb (MemStore.connected (w_store w))); [discriminate E|].
    destruct (MemStore.read_fails (w_store w)); [discriminate E|].
    cbn in E. injection E as <- _. split.
    + rewrite !length_fmap, length_take. lia.
    + intros i d Hd. rewrite <- list_fmap_compose in Hd.
      apply list_lookup_fmap_Some in Hd as ([oid fields] & -> & Hi).
      apply lookup_take_Some in Hi as [Hi _].
      exists oid, fields. split; [exact Hi|]. apply remap_document.
Qed.

(** ** Running twice *)

Lemma run_pipeline_available (req : RunRequest.t) (w : world) :
  strip (RunRequest.trigger_phrase req) = trigger →
  RunRequest.format req ∈ VideoJob.format_literals →
  MemStore.available (w_store w) = true →
  ∃ w',
    run_pipeline req w
    = (Returned (body_of req (Some (str (PObjectId (MemStore.next_oid (w_store w)))))),
       w')
    ∧ MemStore.available (w_store w') = true
    ∧ MemStore.next_oid (w_store w') = N.succ (MemStore.next_oid (w_store w))
    ∧ MemStore.collection "videojob" (w_store w')
      = (MemStore.collection "videojob" (w_store w)
         ++ [(MemStore.next_oid (w_store w), VideoJob.model_dump (job_of req))])%list.
Proof.
  intros Heq Hfmt Hav. rewrite (run_pipeline_runs _ _ Heq). cbv zeta.
  rewrite bool_decide_eq_true_2 by exact Hfmt.
  cbn [create_document mem_store].
  destruct (insert_available "videojob" (job_of req) _ Hav) as [s' E].
  rewrite E. cbn [fst snd id_of].
  apply insert_done in E as (_ & Hn & Hc & Ha).
  eexists. split; [reflexivity|]. cbn [w_store].
  split; [congruence|]. split; assumption.
Qed.

(** C9: two runs with the same request, one after the other on a store
    that is available, both return; their bodies carry the same script and
    the same final URL, which are functions of the request alone, and
    different job ids; the store then holds two more records, with the
    same content under different identifiers. *)
Theorem run_pipeline_twice (req : RunRequest.t) (w : world) :
  strip (RunRequest.trigger_phrase req) = "Create a full video automatically." →
  RunRequest.format req ∈ ["1080p"; "9:16"; "16:9"; "square"] →
  MemStore.available (w_store w) = true →
  ∃ r1 w1 r2 w2 id1 id2 oid1 oid2 content,
    run_pipeline req w = (Returned r1, w1)
    ∧ run_pipeline req w1 = (Returned r2, w2)
    ∧ r1 !! "job_id" = Some (PStr id1)
    ∧ r2 !! "job_id" = Some (PStr id2)
    ∧ id1 ≠ id2
    ∧ r1 !! "script" = Some (PStr (script_of (topic_of req)))
    ∧ r2 !! "script" = Some (PStr (script_of (topic_of req)))
    ∧ r1 !! "final_url" = Some (PStr "https://example.com/final_video.mp4")
    ∧ r2 !! "final_url" = Some (PStr "https://example.com/final_video.mp4")
    ∧ MemStore.collection "videojob" (w_store w2)
      = (MemStore.collection "videojob" (w_store w)
         ++ [(oid1, content); (oid2, content)])%list
    ∧ oid1 ≠ oid2
    ∧ id1 = str (PObjectId oid1)
    ∧ id2 = str (PObjectId oid2)
    ∧ content !! "script" = Some (PStr (script_of (topic_of req)))
    ∧ content !! "final_url" = Some (PStr "https://example.com/final_video.mp4").
Proof.
  intros Heq Hfmt Hav.
  destruct (run_pipeline_available req w Heq Hfmt Hav) as (w1 & E1 & Hav1 & Hn1 & Hc1).
  destruct (run_pipeline_available req w1 Heq Hfmt Hav1) as (w2 & E2 & _ & _ & Hc2).
  destruct (body_of_lookups req (Some (str (PObjectId (MemStore.next_oid (w_store w))))))
    as (Hj1 & _ & Hs1 & _ & _ & Hf1).
  destruct (body_of_lookups req (Some (str (PObjectId (MemStore.next_oid (w_store w1))))))
    as (Hj2 & _ & Hs2 & _ & _ & Hf2).
  exists (body_of req (Some (str (PObjectId (MemStore.next_oid (w_store w)))))), w1,
    (body_of req (Some (str (PObjectId (MemStore.next_oid (w_store w1)))))), w2,
    (str (PObjectId (MemStore.next_oid (w_store w)))),
    (str (PObjectId (MemStore.next_oid (w_store w1)))),
    (MemStore.next_oid (w_store w)), (MemStore.next_oid (w_store w1)),
    (VideoJob.model_dump (job_of req)).
  assert (Hne : MemStore.next_oid (w_store w) ≠ MemStore.next_oid (w_store w1))
    by (rewrite Hn1; lia).
  split; [exact E1|]. split; [exact E2|].
  split; [exact Hj1|]. split; [exact Hj2|].
  split; [intros E; apply Hne; exact (inj pretty _ _ E)|].
  split; [exact Hs1|]. split; [exact Hs2|].
  split; [exact Hf1|]. split; [exact Hf2|].
  split; [rewrite Hc2, Hc1, <- (assoc_L app); reflexivity|].
  split; [exact Hne|]. split; [reflexivity|]. split; [reflexivity|].
  unfold VideoJob.model_dump. split; by simplify_map_eq.
Qed.

(** ** Stripping and the trigger gate *)

Lemma append_assoc (a b c : string) : (a +:+ b) +:+ c = a +:+ (b +:+ c).
Proof.
  induction a as [|x a IH]; [reflexivity|].
  change (String x ((a +:+ b) +:+ c) = String x (a +:+ (b +:+ c))).
  by rewrite IH.
Qed.

Lemma append_nil_r (a : string) : a +:+ "" = a.
Proof.
  induction a as [|x a IH]; [reflexivity|].
  change (String x (a +:+ "") = String x a). by rewrite IH.
Qed.

Lemma rev_app_eq (s1 s2 : string) : String.rev_app s1 s2 = String.rev s1 +:+ s2.
Proof.
  revert s2. induction s1 as [|x s1 IH]; intros s2; [reflexivity|].
  unfold String.rev. cbn [String.rev_app].
  rewrite (IH (String x s2)), (IH (String x "")), append_assoc. reflexivity.
Qed.

Lemma rev_cons (x : ascii) (s : string) :
  String.rev (String x s) = String.rev s +:+ String x "".
Proof. unfold String.rev at 1. cbn [String.rev_app]. apply rev_app_eq. Qed.

Lemma rev_append (a b : string) :
  String.rev (a +:+ b) = String.rev b +:+ String.rev a.
Proof.
  induction a as [|x a IH].
  - change ("" +:+ b) with b. change (String.rev "") with "".
    by rewrite append_nil_r.
  - change (String x a +:+ b) with (String x (a +:+ b)).
    rewrite !rev_cons, IH, append_assoc. reflexivity.
Qed.

Lemma rev_involutive (s : string) : String.rev (String.rev s) = s.
Proof.
  induction s as [|x s IH]; [reflexivity|].
  rewrite rev_cons, rev_append, IH. reflexivity.
Qed.

Lemma all_space_app (a b : string) :
  all_space (a +:+ b) = all_space a && all_space b.
Proof.
  induction a as [|x a IH]; [reflexivity|].
  change (String x a +:+ b) with (String x (a +:+ b)). cbn [all_space].
  rewrite IH. apply andb_assoc.
Qed.

Lemma all_space_rev (s : string) : all_space (String.rev s) = all_space s.
Proof.
  induction s as [|x s IH]; [reflexivity|].
  rewrite rev_cons, all_space_app, IH. cbn [all_space].
  rewrite andb_true_r. apply andb_comm.
Qed.

Lemma lstrip_app_space (l s : string) :
  all_space l = true → lstrip (l +:+ s) = lstrip s.
Proof.
  induction l as [|x l IH]; [reflexivity|].
  cbn [all_space]. intros [Hx Hl]%andb_true_iff.
  change (String x l +:+ s) with (String x (l +:+ s)). cbn [lstrip].
  rewrite Hx. exact (IH Hl).
Qed.

Lemma lstrip_split (s : string) :
  ∃ l, all_space l = true ∧ s = l +:+ lstrip s.
Proof.
  induction s as [|x s (l & Hl & E)]; [by exists ""|].
  cbn [lstrip]. destruct (is_space x) eqn:Hx.
  - exists (String x l). cbn [all_space]. rewrite Hx, Hl. split; [reflexivity|].
    change (String x s = String x (l +:+ lstrip s)). by rewrite <- E.
  - by exists "".
Qed.

Lemma rstrip_split (s : string) :
  ∃ r, all_space r = true ∧ s = rstrip s +:+ r.
Proof.
  destruct (lstrip_split (String.rev s)) as (l & Hl & E).
  exists (String.rev l). split; [by rewrite all_space_rev|].
  unfold rstrip. rewrite <- rev_append, <- E. symmetry. apply rev_involutive.
Qed.

Lemma strip_split (s : string) :
  ∃ l r, all_space l = true ∧ all_space r = true ∧ s = l +:+ strip s +:+ r.
Proof.
  destruct (lstrip_split s) as (l & Hl & El).
  destruct (rstrip_split (lstrip s)) as (r & Hr & Er).
  exists l, r. split; [exact Hl|]. split; [exact Hr|].
  unfold strip. by rewrite <- Er.
Qed.

Lemma strip_padded_trigger (l r : string) :
  all_space l = true → all_space r = true →
  strip (l +:+ trigger +:+ r) = trigger.
Proof.
  intros Hl Hr. unfold strip.
  rewrite (lstrip_app_space l _ Hl).
  change (lstrip (trigger +:+ r)) with (trigger +:+ r).
  unfold rstrip. rewrite rev_append.
  rewrite lstrip_app_space by (by rewrite all_space_rev).
  change (lstrip (String.rev trigger)) with (String.rev trigger).
  apply rev_involutive.
Qed.

Section Gate.
Context `{RS : RecordStore}.

(** X1: [run_pipeline] lets a request past its gate exactly when the
    trigger phrase is "Create a full video automatically." with nothing
    but whitespace before and after it. *)
Theorem run_pipeline_gate_padding (req : RunRequest.t) (w : world) :
  (∃ l r, all_space l = true ∧ all_space r = true
          ∧ RunRequest.trigger_phrase req
            = l +:+ "Create a full video automatically." +:+ r)
  ↔ (run_pipeline req w).1 ≠ Raised (HTTPException 400 "Invalid trigger phrase").
Proof.
  split.
  - intros (l & r & Hl & Hr & E).
    rewrite (run_pipeline_runs req w)
      by (rewrite E; exact (strip_padded_trigger l r Hl Hr)).
    cbv zeta. case_bool_decide; discriminate.
  - intros Hrun.
    destruct (decide (strip (RunRequest.trigger_phrase req) = trigger)) as [E|Hne].
    + destruct (strip_split (RunRequest.trigger_phrase req)) as (l & r & Hl & Hr & Es).
      exists l, r. rewrite E in Es. auto.
    + exfalso. apply Hrun. by rewrite run_pipeline_rejects.
Qed.

End Gate.

(** ** Naming the b-roll clips *)

Lemma broll_urls_from_length start (l1 l2 : list string) :
  length l1 = length l2 → broll_urls_from start l1 = broll_urls_from start l2.
Proof.
  revert start l2. induction l1 as [|x l1 IH]; intros start [|y l2] E;
    try discriminate E; [reflexivity|].
  unfold broll_urls_from in *. cbn [enumerate fmap list_fmap].
  f_equal. apply IH. by injection E.
Qed.

Lemma broll_urls_from_app start (l1 l2 : list string) :
  broll_urls_from start (l1 ++ l2)
  = (broll_urls_from start l1
     ++ broll_urls_from (start + Z.of_nat (length l1)) l2)%list.
Proof.
  revert start. induction l1 as [|x l1 IH]; intros start.
  - cbn. by rewrite Z.add_0_r.
  - unfold broll_urls_from in *. cbn [app enumerate fmap list_fmap length].
    f_equal. rewrite IH. do 3 f_equal. lia.
Qed.

(** X2: the URLs [action_generate_broll] returns depend on how many
    prompts it gets and on nothing else: two lists of prompts of the same
    length get the same URLs. *)
Theorem generate_broll_ignores_prompt_text (prompts1 prompts2 : list string) :
  length prompts1 = length prompts2 →
  BrollRes.broll_urls (action_generate_broll (GenerateBrollPayload.mk prompts1))
  = BrollRes.broll_urls (action_generate_broll (GenerateBrollPayload.mk prompts2)).
Proof. exact (broll_urls_from_length 1 prompts1 prompts2). Qed.

(** X3: on a list of prompts that is one list followed by another,
    [action_generate_broll] gives the URLs of the first list followed by
    names that go on counting where the first list stopped; with no
    prompt it gives no URL. *)
Theorem generate_broll_append (prompts1 prompts2 : list string) :
  broll_urls_for (prompts1 ++ prompts2)
  = (broll_urls_for prompts1
     ++ ((λ p : Z * string, "https://example.com/broll_" +:+ pretty p.1 +:+ ".mp4")
           <$> enumerate (Z.of_nat (length prompts1) + 1) prompts2))%list
  ∧ broll_urls_for [] = [].
Proof.
  split; [|reflexivity].
  change (broll_urls_from 1 (prompts1 ++ prompts2)
          = (broll_urls_from 1 prompts1
             ++ broll_urls_from (Z.of_nat (length prompts1) + 1) prompts2)%list).
  rewrite broll_urls_from_app. do 2 f_equal. lia.
Qed.

(** ** A run that passes the gate and the job validation *)

Section Success.
Context `{RS : RecordStore}.

(** X4: with a valid trigger phrase and a format among the four literals,
    [run_pipeline] returns whatever the store does.  It makes four calls:
    the voice stub on the script, the b-roll stub on the scenes, the edit
    stub on what those two returned together with the request's style and
    format, and one insert into "videojob", last.  The store is left as
    that insert leaves it, and the body's [job_id] is the identifier the
    insert returned, or [None] when it raised. *)
Theorem run_pipeline_calls (req : RunRequest.t) (w : world) :
  strip (RunRequest.trigger_phrase req) = "Create a full video automatically." →
  RunRequest.format req ∈ ["1080p"; "9:16"; "16:9"; "square"] →
  let topic := str_or (RunRequest.topic req) default_topic in
  let voice_payload :=
    GenerateVoicePayload.mk (script_of topic) (RunRequest.voice req) in
  let broll_payload := GenerateBrollPayload.mk scenes in
  let edit_payload :=
    AutoEditPayload.mk
      (VoiceRes.voiceover_url (action_generate_voice voice_payload))
      (BrollRes.broll_urls (action_generate_broll broll_payload))
      (RunRequest.style req) (RunRequest.format req) in
  ∃ job r w',
    run_pipeline req w = (Returned r, w')
    ∧ events_of (run_pipeline req) w
      = [GenerateVoice voice_payload; GenerateBroll broll_payload;
         AutoEdit edit_payload; CreateDocument "videojob" job]
    ∧ w_store w' = (create_document "videojob" job (w_store w)).2
    ∧ r !! "job_id"
      = Some match (create_document "videojob" job (w_store w)).1 with
             | Done job_id => PStr job_id
             | Failed _ => PNone
             end.
Proof.
  intros Heq Hfmt. cbv zeta.
  exists (job_of req). rewrite run_pipeline_events.
  rewrite bool_decide_eq_false_2 by (intros Hne; exact (Hne Heq)).
  rewrite (run_pipeline_runs _ _ Heq). cbv zeta.
  rewrite !bool_decide_eq_true_2 by exact Hfmt.
  eexists _, _. split; [reflexivity|]. split; [reflexivity|].
  split; [reflexivity|].
  destruct (body_of_lookups req
              (id_of (create_document "videojob" (job_of req) (w_store w)).1))
    as (Hj & _).
  rewrite Hj. by destruct (create_document _ _ _).1.
Qed.

(** X5: what [run_pipeline] hands to the store is what it returns: the
    job it inserts holds the script, the voiceover URL, the b-roll URLs
    and the final URL of the body, and the topic of the body's trend,
    next to the request's voice, style and format.  Its trigger phrase is
    the canonical one even when the request's phrase was padded, and it
    has no [meta]. *)
Theorem run_pipeline_persists_what_it_returns
    (req : RunRequest.t) (w : world) (job : VideoJob.t)
    (r : gmap string pyval) (w' : world) :
  CreateDocument "videojob" job ∈ events_of (run_pipeline req) w →
  run_pipeline req w = (Returned r, w') →
  r !! "script" = Some (of_opt_str (VideoJob.script job))
  ∧ r !! "voiceover_url" = Some (of_opt_str (VideoJob.voiceover_url job))
  ∧ r !! "broll_urls" = Some (of_opt_str_list (VideoJob.broll_urls job))
  ∧ r !! "final_url" = Some (of_opt_str (VideoJob.final_url job))
  ∧ (r !! "trend") ≫= (λ t, getitem t "topic")
    = Some (PStr (VideoJob.topic job))
  ∧ VideoJob.voice job = RunRequest.voice req
  ∧ VideoJob.style job = RunRequest.style req
  ∧ VideoJob.format job = RunRequest.format req
  ∧ VideoJob.trigger_phrase job = "Create a full video automatically."
  ∧ VideoJob.meta job = None.
Proof.
  intros Hin E. rewrite run_pipeline_events in Hin.
  case_bool_decide as Ht; [by apply elem_of_nil in Hin|].
  rewrite (run_pipeline_runs _ _ Ht) in E. cbv zeta in E.
  case_bool_decide as Hf; [|discriminate E].
  assert (job = job_of req) as ->.
  { unfold stub_calls in Hin.
    repeat (apply elem_of_app in Hin as [Hin|Hin]
            || apply elem_of_cons in Hin as [Hin|Hin]
            || apply elem_of_nil in Hin);
      try discriminate Hin; try contradiction.
    by injection Hin. }
  injection E as <- _.
  destruct (body_of_lookups req
              (id_of (create_document "videojob" (job_of req) (w_store w)).1))
    as (_ & Htr & Hs & Hv & Hb & Hfin).
  rewrite Htr, Hs, Hv, Hb, Hfin. repeat split.
Qed.

(** X6: a request that leaves out the trigger phrase and the format runs
    the whole pipeline, whatever its topic, voice and style and whatever
    the store does: the defaults of [RunRequest] pass the gate and the
    validation of [VideoJob]. *)
Theorem run_pipeline_defaults_pass (topic voice style : option string) (w : world) :
  ∃ r w',
    run_pipeline (RunRequest.new None topic voice style None) w = (Returned r, w')
    ∧ is_Some (r !! "script") ∧ is_Some (r !! "final_url").
Proof.
  rewrite run_pipeline_runs by reflexivity. cbv zeta.
  rewrite bool_decide_eq_true_2 by (cbn; compute_done).
  eexists _, _. split; [reflexivity|].
  destruct (body_of_lookups (RunRequest.new None topic voice style None)
              (id_of (create_document "videojob"
                        (job_of (RunRequest.new None topic voice style None))
                        (w_store w)).1))
    as (_ & _ & Hs & _ & _ & Hfin).
  rewrite Hs, Hfin. split; eexists; reflexivity.
Qed.

End Success.

(** ** The job endpoints, for any record store *)

Lemma remap_id_other (d : gmap string pyval) (k : string) :
  k ≠ "id" → k ≠ "_id" → remap_id d !! k = d !! k.
Proof.
  intros H1 H2. unfold remap_id. destruct (d !! "_id"); [|reflexivity].
  rewrite lookup_insert_ne by congruence. apply lookup_delete_ne. congruence.
Qed.

Lemma remap_id_no_key (d : gmap string pyval) : remap_id d !! "_id" = None.
Proof.
  destruct (d !! "_id") as [v|] eqn:E.
  - exact (proj2 (proj1 (remap_id_moves_key d) v E)).
  - by rewrite (proj2 (remap_id_moves_key d) E).
Qed.

(** X7: the loop body of [list_jobs], on one document.  A document with
    an "_id" gets the string of that value under "id", in place of any
    "id" it had, and loses "_id"; a document without "_id" is left as it
    is; every other key keeps its value; doing it twice changes nothing
    more. *)
Theorem remap_id_document (d : gmap string pyval) :
  (∀ v, d !! "_id" = Some v → remap_id d !! "id" = Some (PStr (str v)))
  ∧ (d !! "_id" = None → remap_id d = d)
  ∧ remap_id d !! "_id" = None
  ∧ (∀ k, k ≠ "id" → k ≠ "_id" → remap_id d !! k = d !! k)
  ∧ remap_id (remap_id d) = remap_id d.
Proof.
  split; [intros v E; exact (proj1 (proj1 (remap_id_moves_key d) v E))|].
  split; [exact (proj2 (remap_id_moves_key d))|].
  split; [exact (remap_id_no_key d)|].
  split; [exact (remap_id_other d)|].
  exact (proj2 (remap_id_moves_key (remap_id d)) (remap_id_no_key d)).
Qed.

Section Endpoints.
Context `{RS : RecordStore}.

(** X8: [list_jobs] with any store.  It makes one query, of "videojob"
    with the limit it was given.  When the query raises it raises the 500
    [HTTPException] with the message; when the query returns documents it
    returns as many, in the same order, each being the store's document
    with "_id" moved to "id". *)
Theorem list_jobs_keeps_documents (limit : Z) (w : world) :
  events_of (list_jobs limit) w = [GetDocuments "videojob" limit]
  ∧ w_store (list_jobs limit w).2
    = (get_documents "videojob" limit (w_store w)).2
  ∧ (∀ msg, (get_documents "videojob" limit (w_store w)).1 = Failed msg →
       (list_jobs limit w).1 = Raised (HTTPException 500 msg))
  ∧ (∀ docs, (get_documents "videojob" limit (w_store w)).1 = Done docs →
       ∃ out, (list_jobs limit w).1 = Returned out
              ∧ length out = length docs
              ∧ ∀ (i : nat) d, docs !! i = Some d → out !! i = Some (remap_id d)).
Proof.
  split; [|split; [|split]].
  - apply events_of_app. rewrite list_jobs_runs. reflexivity.
  - rewrite list_jobs_runs. reflexivity.
  - intros msg E. rewrite list_jobs_runs. cbv zeta. cbn [fst]. by rewrite E.
  - intros docs E. rewrite list_jobs_runs. cbv zeta. cbn [fst]. rewrite E.
    eexists. split; [reflexivity|]. split; [apply length_fmap|].
    intros i d Hd. rewrite list_lookup_fmap, Hd. reflexivity.
Qed.

(** X9: [create_job] with any store.  It makes one call, the insert of
    the job it was given into "videojob", unchanged and whatever its
    status or trigger phrase; it calls no action stub.  When the insert
    returns an identifier the body has the two keys "id" and "status",
    holding that identifier and the job's own status; when it raises, the
    500 [HTTPException] carries the message. *)
Theorem create_job_inserts_as_given (job : VideoJob.t) (w : world) :
  events_of (create_job job) w = [CreateDocument "videojob" job]
  ∧ w_store (create_job job w).2
    = (create_document "videojob" job (w_store w)).2
  ∧ (∀ msg, (create_document "videojob" job (w_store w)).1 = Failed msg →
       (create_job job w).1 = Raised (HTTPException 500 msg))
  ∧ (∀ job_id, (create_document "videojob" job (w_store w)).1 = Done job_id →
       ∃ r, (create_job job w).1 = Returned r
            ∧ dom r = ({["id"; "status"]} : gset string)
            ∧ r !! "id" = Some (PStr job_id)
            ∧ r !! "status" = Some (PStr (VideoJob.status job))).
Proof.
  split; [|split; [|split]].
  - apply events_of_app. rewrite create_job_runs. reflexivity.
  - rewrite create_job_runs. reflexivity.
  - intros msg E. rewrite create_job_runs. cbv zeta. cbn [fst]. by rewrite E.
  - intros job_id E. rewrite create_job_runs. cbv zeta. cbn [fst]. rewrite E.
    eexists. split; [reflexivity|].
    split; [rewrite !dom_insert_L, dom_empty_L; set_solver|].
    split; by simplify_map_eq.
Qed.

End Endpoints.

(** ** Validation in [schemas.py] *)

Lemma required_elem loc x (l : string) :
  l ∈ VideoJob.required loc x ↔ l = loc ∧ x = None.
Proof.
  destruct x; cbn.
  - rewrite elem_of_nil. split; [tauto|]. intros [_ ?]; discriminate.
  - rewrite list_elem_of_singleton. tauto.
Qed.

Lemma literal_elem loc allowed x (l : string) :
  l ∈ VideoJob.literal loc allowed x ↔ l = loc ∧ ∃ v, x = Some v ∧ v ∉ allowed.
Proof.
  destruct x as [v|]; cbn.
  - case_bool_decide as Hv.
    + rewrite elem_of_nil. split; [tauto|].
      intros (_ & v' & E & Hn). injection E as <-. contradiction.
    + rewrite list_elem_of_singleton. split; [eauto|tauto].
  - rewrite elem_of_nil. split; [tauto|]. intros (_ & v & E & _). discriminate.
Qed.

Lemma ge_le_elem loc lo hi x (l : string) :
  l ∈ VideoJob.ge_le loc lo hi x
  ↔ l = loc ∧ ∃ v, x = Some v ∧ ¬ (lo ≤ v ≤ hi)%Z.
Proof.
  destruct x as [v|]; cbn.
  - destruct (bool_decide (lo ≤ v)%Z) eqn:E1;
      destruct (bool_decide (v ≤ hi)%Z) eqn:E2; cbn;
      try apply bool_decide_eq_true in E1; try apply bool_decide_eq_true in E2;
      try apply bool_decide_eq_false in E1; try apply bool_decide_eq_false in E2.
    + rewrite elem_of_nil. split; [tauto|].
      intros (_ & v' & E & Hn). injection E as <-. lia.
    + rewrite list_elem_of_singleton. split; [|tauto].
      intros ->. split; [reflexivity|]. exists v. split; [reflexivity|lia].
    + rewrite list_elem_of_singleton. split; [|tauto].
      intros ->. split; [reflexivity|]. exists v. split; [reflexivity|lia].
    + rewrite list_elem_of_singleton. split; [|tauto].
      intros ->. split; [reflexivity|]. exists v. split; [reflexivity|lia].
  - rewrite elem_of_nil. split; [tauto|]. intros (_ & v & E & _). discriminate.
Qed.

Lemma job_errors_elem (k : VideoJob.kwargs) (l : string) :
  l ∈ VideoJob.errors k
  ↔ (l = "topic" ∧ VideoJob.k_topic k = None)
    ∨ (l = "format"
       ∧ ∃ f, VideoJob.k_format k = Some f ∧ f ∉ VideoJob.format_literals)
    ∨ (l = "status"
       ∧ ∃ s, VideoJob.k_status k = Some s ∧ s ∉ VideoJob.status_literals)
    ∨ (l = "progress"
       ∧ ∃ p, VideoJob.k_progress k = Some p ∧ ¬ (0 ≤ p ≤ 100)%Z).
Proof.
  unfold VideoJob.errors.
  rewrite !elem_of_app, required_elem, !literal_elem, ge_le_elem. tauto.
Qed.

Lemma job_new_cases (k : VideoJob.kwargs) :
  (VideoJob.errors k = [] ∧ ∃ job, VideoJob.new k = Returned job)
  ∨ (VideoJob.errors k ≠ []
     ∧ VideoJob.new k = Raised (ValidationError (VideoJob.errors k))).
Proof.
  unfold VideoJob.new. destruct (VideoJob.errors k); [left|right]; eauto.
Qed.

(** X10: [VideoJob(...)] builds a job exactly when a topic is given, the
    format, if given, is one of the four literals, the status, if given,
    is one of "queued", "running", "completed", "failed", and the
    progress, if given, lies within 0..100. *)
Theorem VideoJob_accepts_iff (k : VideoJob.kwargs) :
  (∃ job, VideoJob.new k = Returned job)
  ↔ is_Some (VideoJob.k_topic k)
    ∧ (∀ f, VideoJob.k_format k = Some f →
         f ∈ ["1080p"; "9:16"; "16:9"; "square"])
    ∧ (∀ s, VideoJob.k_status k = Some s →
         s ∈ ["queued"; "running"; "completed"; "failed"])
    ∧ (∀ p, VideoJob.k_progress k = Some p → (0 ≤ p ≤ 100)%Z).
Proof.
  split.
  - intros [job E]. apply new_returned in E as [Hnil _].
    assert (Hno : ∀ l, l ∉ VideoJob.errors k)
      by (intros l; rewrite Hnil; apply not_elem_of_nil).
    split; [|split; [|split]].
    + destruct (VideoJob.k_topic k) eqn:E; [eauto|].
      destruct (Hno "topic"). apply job_errors_elem. auto.
    + intros f E. destruct (decide (f ∈ VideoJob.format_literals)); [assumption|].
      destruct (Hno "format"). apply job_errors_elem. right; left. eauto.
    + intros s E. destruct (decide (s ∈ VideoJob.status_literals)); [assumption|].
      destruct (Hno "status"). apply job_errors_elem. right; right; left. eauto.
    + intros p E. destruct (decide (0 ≤ p ≤ 100)%Z); [assumption|].
      destruct (Hno "progress"). apply job_errors_elem. right; right; right. eauto.
  - intros ([t Ht] & Hf & Hs & Hp).
    destruct (job_new_cases k) as [[_ H]|[Hne _]]; [exact H|].
    destruct Hne. apply elem_of_nil_inv. intros l Hin.
    apply job_errors_elem in Hin
      as [[_ E]|[(_ & f & E & Hn)|[(_ & s & E & Hn)|(_ & p & E & Hn)]]].
    + congruence.
    + exact (Hn (Hf f E)).
    + exact (Hn (Hs s E)).
    + exact (Hn (Hp p E)).
Qed.

(** X11: when [VideoJob(...)] refuses its arguments, the
    [ValidationError] names exactly the fields at fault: "topic" when no
    topic is given, "format" and "status" when the given value is not one
    of the literals, "progress" when the given value is outside 0..100;
    it names no other field. *)
Theorem VideoJob_error_names_fields (k : VideoJob.kwargs) (e : exn) :
  VideoJob.new k = Raised e →
  ∃ locs, e = ValidationError locs
    ∧ locs ≠ []
    ∧ ("topic" ∈ locs ↔ VideoJob.k_topic k = None)
    ∧ ("format" ∈ locs
       ↔ ∃ f, VideoJob.k_format k = Some f ∧ f ∉ VideoJob.format_literals)
    ∧ ("status" ∈ locs
       ↔ ∃ s, VideoJob.k_status k = Some s ∧ s ∉ VideoJob.status_literals)
    ∧ ("progress" ∈ locs
       ↔ ∃ p, VideoJob.k_progress k = Some p ∧ ¬ (0 ≤ p ≤ 100)%Z)
    ∧ ∀ l, l ∈ locs → l ∈ ["topic"; "format"; "status"; "progress"].
Proof.
  intros E. destruct (job_new_cases k) as [[_ [job H]]|[Hne H]]; [congruence|].
  rewrite H in E. injection E as <-. exists (VideoJob.errors k).
  split; [reflexivity|]. split; [exact Hne|].
  repeat split; try (intros Hin; apply job_errors_elem in Hin;
                     destruct Hin as [[? ?]|[[? ?]|[[? ?]|[? ?]]]];
                     first [discriminate | assumption]);
    try (intros Hc; apply job_errors_elem; tauto).
  intros l Hin. apply job_errors_elem in Hin.
  rewrite !elem_of_cons. tauto.
Qed.

(** X12: a job that was built has its status among the four literals,
    and holds the topic, format, status and progress exactly as they were
    given: validation changes no value it accepts. *)
Theorem VideoJob_keeps_supplied_values (k : VideoJob.kwargs) (job : VideoJob.t) :
  VideoJob.new k = Returned job →
  VideoJob.status job ∈ ["queued"; "running"; "completed"; "failed"]
  ∧ VideoJob.k_topic k = Some (VideoJob.topic job)
  ∧ (∀ f, VideoJob.k_format k = Some f → VideoJob.format job = f)
  ∧ (∀ s, VideoJob.k_status k = Some s → VideoJob.status job = s)
  ∧ (∀ p, VideoJob.k_progress k = Some p → VideoJob.progress job = p).
Proof.
  intros E.
  assert (Hno : ∀ l, l ∉ VideoJob.errors k).
  { apply new_returned in E as [Hnil _]. intros l. rewrite Hnil.
    apply not_elem_of_nil. }
  assert (Hs : ∀ s, VideoJob.k_status k = Some s → s ∈ VideoJob.status_literals).
  { intros s Es. destruct (decide (s ∈ VideoJob.status_literals)); [assumption|].
    destruct (Hno "status"). apply job_errors_elem. right; right; left. eauto. }
  assert (Ht : is_Some (VideoJob.k_topic k)).
  { destruct (VideoJob.k_topic k) eqn:Et; [eauto|].
    destruct (Hno "topic"). apply job_errors_elem. auto. }
  clear Hno. destruct Ht as [t Ht].
  unfold VideoJob.new in E. destruct (VideoJob.errors k); [|discriminate E].
  injection E as <-. cbn. split; [|split; [|split; [|split]]].
  - destruct (VideoJob.k_status k) as [s|]; cbn; [by apply Hs|].
    rewrite !elem_of_cons. tauto.
  - by rewrite Ht.
  - by intros f ->.
  - by intros s ->.
  - by intros p ->.
Qed.

Lemma user_errors_elem (k : User.kwargs) (l : string) :
  l ∈ User.errors k
  ↔ (l = "name" ∧ User.k_name k = None)
    ∨ (l = "email" ∧ User.k_email k = None)
    ∨ (l = "address" ∧ User.k_address k = None)
    ∨ (l = "age" ∧ ∃ a, User.k_age k = Some a ∧ ¬ (0 ≤ a ≤ 120)%Z).
Proof.
  unfold User.errors.
  rewrite !elem_of_app, !required_elem, ge_le_elem. tauto.
Qed.

(** X13: [User(...)] builds a user exactly when name, email and address
    are given and the age, if given, lies within 0..120; a user that was
    built has no age or an age within 0..120, and is active unless told
    otherwise. *)
Theorem User_accepts_iff (k : User.kwargs) :
  ((∃ u, User.new k = Returned u)
   ↔ is_Some (User.k_name k) ∧ is_Some (User.k_email k)
     ∧ is_Some (User.k_address k)
     ∧ (∀ a, User.k_age k = Some a → (0 ≤ a ≤ 120)%Z))
  ∧ (∀ u, User.new k = Returned u →
       (∀ a, User.age u = Some a → (0 ≤ a ≤ 120)%Z)
       ∧ (User.k_is_active k = None → User.is_active u = true)).
Proof.
  assert (Hok : User.errors k = [] →
                is_Some (User.k_name k) ∧ is_Some (User.k_email k)
                ∧ is_Some (User.k_address k)
                ∧ (∀ a, User.k_age k = Some a → (0 ≤ a ≤ 120)%Z)).
  { intros Hnil.
    assert (Hno : ∀ l, l ∉ User.errors k)
      by (intros l; rewrite Hnil; apply not_elem_of_nil).
    split; [|split; [|split]].
    - destruct (User.k_name k) eqn:E; [eauto|].
      destruct (Hno "name"). apply user_errors_elem. auto.
    - destruct (User.k_email k) eqn:E; [eauto|].
      destruct (Hno "email"). apply user_errors_elem. auto.
    - destruct (User.k_address k) eqn:E; [eauto|].
      destruct (Hno "address"). apply user_errors_elem. auto.
    - intros a E. destruct (decide (0 ≤ a ≤ 120)%Z); [assumption|].
      destruct (Hno "age"). apply user_errors_elem. right; right; right. eauto. }
  split; [split|].
  - intros [u E]. apply Hok. unfold User.new in E.
    by destruct (User.errors k).
  - intros ([n Hn] & [m Hm] & [d Hd] & Ha).
    assert (Hnil : User.errors k = []).
    { apply elem_of_nil_inv. intros l Hin.
      apply user_errors_elem in Hin
        as [[_ E]|[[_ E]|[[_ E]|(_ & a & E & Hna)]]]; try congruence.
      exact (Hna (Ha a E)). }
    unfold User.new. rewrite Hnil. eauto.
  - intros u E.
    assert (Hnil : User.errors k = [])
      by (unfold User.new in E; by destruct (User.errors k)).
    destruct (Hok Hnil) as (_ & _ & _ & Ha).
    unfold User.new in E. rewrite Hnil in E. injection E as <-. cbn.
    split; [exact Ha|]. by intros ->.
Qed.

(** ** The diagnostic endpoint *)

Lemma str_prefix_split (n : nat) (s : string) :
  ∃ rest, s = str_prefix n s +:+ rest.
Proof.
  revert s. induction n as [|n IH]; intros s; [by exists s|].
  destruct s as [|c s]; [by exists ""|].
  destruct (IH s) as [rest E]. exists rest. cbn [str_prefix].
  change (String c s = String c (str_prefix n s +:+ rest)). by rewrite <- E.
Qed.

Lemma str_prefix_length (n : nat) (s : string) :
  String.length (str_prefix n s) = min n (String.length s).
Proof.
  revert s. induction n as [|n IH]; intros [|c s]; cbn; try reflexivity.
  by rewrite IH.
Qed.

Lemma env_truthy_iff (v : option string) :
  env_truthy v = true ↔ ∃ s, v = Some s ∧ s ≠ "".
Proof.
  destruct v as [s|]; cbn.
  - rewrite negb_true_iff, bool_decide_eq_false. split; [eauto|].
    intros (s' & E & Hne). by injection E as <-.
  - split; [discriminate|]. intros (s & E & _). discriminate.
Qed.

(** X14: whatever the [db] object is and does, the body of [GET /test]
    has the same six keys and reports the backend as running; its
    [database_url] and [database_name] say "Set" exactly when the
    environment variable is set to a non-empty string and "Not Set"
    otherwise: they never show the store's name or "Configured". *)
Theorem test_database_reports_environment
    (db : option Db.t) (getenv : string → option string) :
  let response := test_database db getenv in
  dom response
  = ({["backend"; "database"; "database_url"; "database_name";
       "connection_status"; "collections"]} : gset string)
  ∧ response !! "backend" = Some (PStr backend_running)
  ∧ response !! "database_url"
    = Some (PStr (if env_truthy (getenv "DATABASE_URL")
                  then env_set else env_not_set))
  ∧ response !! "database_name"
    = Some (PStr (if env_truthy (getenv "DATABASE_NAME")
                  then env_set else env_not_set))
  ∧ (∀ key, env_truthy (getenv key) = true ↔ ∃ s, getenv key = Some s ∧ s ≠ "").
Proof.
  cbv zeta. split; [|split; [|split; [|split]]].
  - unfold test_database.
    destruct db as [[[[v|msg]|] [cs|msg']]|];
      rewrite !dom_insert_L; set_solver.
  - unfold test_database.
    destruct db as [[[[v|msg]|] [cs|msg']]|]; by simplify_map_eq.
  - unfold test_database. rewrite lookup_insert_ne by discriminate.
    apply lookup_insert_eq.
  - unfold test_database. apply lookup_insert_eq.
  - intros key. apply env_truthy_iff.
Qed.

(** X15: the [collections] of [GET /test] are at most ten names: the
    first ten the store lists when there is a [db] object, reading its
    name does not raise and the listing returns; none otherwise. *)
Theorem test_database_collections
    (db : option Db.t) (getenv : string → option string) :
  ∃ names,
    test_database db getenv !! "collections" = Some (PList (PStr <$> names))
    ∧ (length names ≤ 10)%nat
    ∧ (∀ d cs, db = Some d → (∀ msg, Db.name d ≠ Some (Failed msg)) →
         Db.list_collection_names d = Done cs → names = take 10 cs)
    ∧ (db = None → names = [])
    ∧ (∀ d msg, db = Some d → Db.list_collection_names d = Failed msg →
         names = [])
    ∧ (∀ d msg, db = Some d → Db.name d = Some (Failed msg) → names = []).
Proof.
  exists (match db with
          | Some d =>
              match Db.name d, Db.list_collection_names d with
              | Some (Failed _), _ | _, Failed _ => []
              | _, Done cs => take 10 cs
              end
          | None => []
          end).
  unfold test_database.
  destruct db as [[[[v|msg]|] [cs|msg']]|]; cbn [Db.name Db.list_collection_names].
  all: split; [by simplify_map_eq|].
  all: split; [rewrite ?length_take; cbn [length]; lia|].
  all: repeat split; intros; simplify_eq/=; try reflexivity; try congruence.
  all: by destruct (H0 msg).
Qed.

(** X16: the [database] and [connection_status] of [GET /test].  Without
    a [db] object the store is "not initialized" and not connected.  When
    the listing of collections returns it is "Connected & Working"; when
    the listing raises, the status still says "Connected" and the
    database text is "Connected but Error: " followed by the first fifty
    characters of the message, no more.  When reading the name of [db]
    raises, the text is "Error: " with the first fifty characters and the
    status stays "Not Connected". *)
Theorem test_database_status
    (db : option Db.t) (getenv : string → option string) :
  let response := test_database db getenv in
  (db = None →
   response !! "database" = Some (PStr db_not_initialized)
   ∧ response !! "connection_status" = Some (PStr "Not Connected"))
  ∧ (∀ d cs, db = Some d → (∀ msg, Db.name d ≠ Some (Failed msg)) →
       Db.list_collection_names d = Done cs →
       response !! "database" = Some (PStr db_working)
       ∧ response !! "connection_status" = Some (PStr "Connected"))
  ∧ (∀ d msg, db = Some d → (∀ msg', Db.name d ≠ Some (Failed msg')) →
       Db.list_collection_names d = Failed msg →
       response !! "database"
       = Some (PStr (db_connected_error +:+ str_prefix 50 msg))
       ∧ response !! "connection_status" = Some (PStr "Connected"))
  ∧ (∀ d msg, db = Some d → Db.name d = Some (Failed msg) →
       response !! "database" = Some (PStr (db_error +:+ str_prefix 50 msg))
       ∧ response !! "connection_status" = Some (PStr "Not Connected"))
  ∧ (∀ msg, (String.length (str_prefix 50 msg) ≤ 50)%nat
            ∧ ∃ rest, msg = str_prefix 50 msg +:+ rest).
Proof.
  cbv zeta. unfold test_database.
  split; [|split; [|split; [|split]]].
  - intros ->. split; by simplify_map_eq.
  - intros d cs -> Hn E. rewrite E.
    destruct (Db.name d) as [[v|msg]|]; [|by destruct (Hn msg)|];
      split; by simplify_map_eq.
  - intros d msg -> Hn E. rewrite E.
    destruct (Db.name d) as [[v|msg']|]; [|by destruct (Hn msg')|];
      split; by simplify_map_eq.
  - intros d msg -> E. rewrite E. split; by simplify_map_eq.
  - intros msg. split; [rewrite str_prefix_length; lia|apply str_prefix_split].
Qed.

(** ** The statements at sample inputs *)

Lemma run_pipeline_store_failure_witness :
  ∃ r, (run_pipeline rust_request unreachable_world).1 = Returned r
       ∧ r !! "job_id" = Some PNone
       ∧ r !! "script" = Some (PStr (script_of "Rust"))
       ∧ r !! "final_url" = Some (PStr "https://example.com/final_video.mp4").
Proof.
  destruct (proj1 (run_pipeline_store_failure rust_request unreachable_world
                     ltac:(vm_compute; reflexivity))
              (job_of rust_request) "StoreUnavailable"
              ltac:(vm_compute; reflexivity) ltac:(vm_compute; reflexivity))
    as (r & E & Hj & Hs & _ & _ & Hf).
  exists r. repeat split; assumption.
Defined.

Lemma run_pipeline_invalid_trigger_witness :
  run_pipeline wrong_request fresh_world
  = (Raised (HTTPException 400 "Invalid trigger phrase"), fresh_world)
  ∧ events_of (run_pipeline wrong_request) fresh_world = [].
Proof.
  apply (proj2 (run_pipeline_invalid_trigger wrong_request fresh_world)).
  vm_compute. discriminate.
Defined.

Lemma generate_broll_one_url_per_prompt_witness :
  BrollRes.broll_urls (action_generate_broll (GenerateBrollPayload.mk ["a"; "b"]))
  !! 1%nat = Some "https://example.com/broll_2.mp4".
Proof.
  exact (proj1 (proj2 (generate_broll_one_url_per_prompt ["a"; "b"]))
           1%nat "b" eq_refl).
Defined.

Lemma run_pipeline_topic_witness :
  ∃ r w', run_pipeline rust_request fresh_world = (Returned r, w')
          ∧ (r !! "trend") ≫= (λ t, getitem t "topic") = Some (PStr "Rust")
          ∧ ∃ script, r !! "script" = Some (PStr script)
                      ∧ contains "Rust" script = true.
Proof.
  destruct (run_pipeline_topic rust_request fresh_world
              ltac:(vm_compute; reflexivity)) as [Hret Hprop].
  destruct (Hret ltac:(compute_done)) as (r & w' & E).
  destruct (Hprop r w' E) as (used & trend & script & HX & _ & Ht & Hg & Hs & Hc).
  rewrite (HX "Rust" eq_refl ltac:(discriminate)) in Hg, Hc.
  exists r, w'. split; [exact E|]. split.
  - rewrite Ht. exact Hg.
  - exists script. split; assumption.
Defined.

Lemma create_job_store_failure_witness :
  (create_job queued_job unreachable_world).1
  = Raised (HTTPException 500 "StoreUnavailable")
  ∧ w_store (create_job queued_job unreachable_world).2
    = w_store unreachable_world.
Proof.
  exact (proj1 (create_job_store_failure queued_job unreachable_world)
           "StoreUnavailable" (w_store unreachable_world) eq_refl).
Defined.

Lemma list_jobs_at_most_limit_witness :
  ∃ docs w', list_jobs 1 two_jobs_world = (Returned docs, w')
             ∧ (Z.of_nat (length docs) ≤ 1)%Z
             ∧ ∃ d s, docs !! 0%nat = Some d ∧ d !! "id" = Some (PStr s).
Proof.
  destruct (list_jobs_at_most_limit 1 two_jobs_world ltac:(lia)) as [Hret Hprop].
  destruct (Hret eq_refl eq_refl) as (docs & w' & E).
  destruct (Hprop docs w' E) as [Hlen Hid].
  exists docs, w'. split; [exact E|]. split; [exact Hlen|].
  assert (Hd : is_Some (docs !! 0%nat)).
  { apply (f_equal (λ p, match p.1 with Returned l => length l | Raised _ => 0%nat end))
      in E.
    vm_compute in E. destruct docs; [discriminate E|]. eexists. reflexivity. }
  destruct Hd as [d Hd]. destruct (Hid 0%nat d Hd) as (oid & fields & _ & Hi & _).
  exists d, (str (PObjectId oid)). split; assumption.
Defined.

Lemma VideoJob_progress_and_format_witness :
  ∃ locs, VideoJob.new fourk_job = Raised (ValidationError locs) ∧ "format" ∈ locs.
Proof.
  apply (proj1 (proj2 (VideoJob_progress_and_format fourk_job)) "4k" eq_refl).
  compute_done.
Defined.

Lemma run_pipeline_job_completed_witness :
  VideoJob.status (job_of rust_request) = "completed"
  ∧ VideoJob.step (job_of rust_request) = Some "Final MP4 Output"
  ∧ VideoJob.progress (job_of rust_request) = 100
  ∧ VideoJob.status (job_of rust_request) ∉ ["queued"; "running"; "failed"].
Proof.
  apply (proj2 (run_pipeline_job_completed rust_request fresh_world) "videojob").
  apply list_elem_of_In. vm_compute. right; right; right; left. reflexivity.
Defined.

Lemma run_pipeline_twice_witness :
  ∃ r1 w1 r2 w2,
    run_pipeline rust_request fresh_world = (Returned r1, w1)
    ∧ run_pipeline rust_request w1 = (Returned r2, w2)
    ∧ r1 !! "script" = r2 !! "script"
    ∧ r1 !! "final_url" = r2 !! "final_url"
    ∧ r1 !! "job_id" ≠ r2 !! "job_id"
    ∧ length (MemStore.collection "videojob" (w_store w2)) = 2%nat.
Proof.
  destruct (run_pipeline_twice rust_request fresh_world
              ltac:(vm_compute; reflexivity) ltac:(compute_done) eq_refl)
    as (r1 & w1 & r2 & w2 & id1 & id2 & oid1 & oid2 & content
        & E1 & E2 & Hj1 & Hj2 & Hne & Hs1 & Hs2 & Hf1 & Hf2 & Hc & _).
  exists r1, w1, r2, w2. split; [exact E1|]. split; [exact E2|].
  split; [congruence|]. split; [congruence|]. split; [congruence|].
  rewrite Hc. reflexivity.
Defined.

Lemma run_pipeline_unknown_format_witness :
  run_pipeline fourk_request fresh_world
  = (Raised (ValidationError ["format"]),
     World MemStore.empty (stub_calls fourk_request))
  ∧ filter (λ e, is_insert e = true)
      (events_of (run_pipeline fourk_request) fresh_world) = [].
Proof.
  destruct (run_pipeline_unknown_format fourk_request fresh_world
              ltac:(vm_compute; reflexivity) ltac:(compute_done))
    as (E & _ & Hins & _).
  split; [exact E|exact Hins].
Defined.

Lemma run_pipeline_gate_padding_witness :
  (run_pipeline rust_request fresh_world).1
  ≠ Raised (HTTPException 400 "Invalid trigger phrase").
Proof.
  apply (proj1 (run_pipeline_gate_padding rust_request fresh_world)).
  exists "  ", nl. repeat split.
Defined.

Lemma generate_broll_ignores_prompt_text_witness :
  BrollRes.broll_urls (action_generate_broll (GenerateBrollPayload.mk ["a"; "b"]))
  = BrollRes.broll_urls
      (action_generate_broll (GenerateBrollPayload.mk ["dawn"; "dusk"])).
Proof.
  apply (generate_broll_ignores_prompt_text ["a"; "b"] ["dawn"; "dusk"]).
  reflexivity.
Defined.

Lemma generate_broll_append_witness :
  broll_urls_for (["a"] ++ ["b"; "c"])
  = (broll_urls_for ["a"]
     ++ ["https://example.com/broll_2.mp4"; "https://example.com/broll_3.mp4"])%list.
Proof. exact (proj1 (generate_broll_append ["a"] ["b"; "c"])). Defined.

Lemma run_pipeline_calls_witness :
  ∃ r w', run_pipeline rust_request unreachable_world = (Returned r, w')
          ∧ length (events_of (run_pipeline rust_request) unreachable_world) = 4%nat
          ∧ r !! "job_id" = Some PNone.
Proof.
  destruct (run_pipeline_calls rust_request unreachable_world
              ltac:(vm_compute; reflexivity) ltac:(compute_done))
    as (job & r & w' & E & Hev & _ & Hid).
  exists r, w'. split; [exact E|]. split; [by rewrite Hev|].
  rewrite Hid. reflexivity.
Defined.

Lemma run_pipeline_persists_what_it_returns_witness :
  ∃ job r w',
    run_pipeline rust_request fresh_world = (Returned r, w')
    ∧ r !! "script" = Some (of_opt_str (VideoJob.script job))
    ∧ VideoJob.trigger_phrase job = "Create a full video automatically."
    ∧ RunRequest.trigger_phrase rust_request ≠ VideoJob.trigger_phrase job.
Proof.
  destruct (run_pipeline_available rust_request fresh_world
              ltac:(vm_compute; reflexivity) ltac:(compute_done) eq_refl)
    as (w' & E & _).
  assert (Hin : CreateDocument "videojob" (job_of rust_request)
                ∈ events_of (run_pipeline rust_request) fresh_world).
  { apply list_elem_of_In. vm_compute. right; right; right; left. reflexivity. }
  destruct (run_pipeline_persists_what_it_returns rust_request fresh_world
              (job_of rust_request) _ w' Hin E) as (Hs & _).
  eexists (job_of rust_request), _, w'. split; [exact E|].
  split; [exact Hs|]. split; [reflexivity|]. vm_compute. discriminate.
Defined.

Lemma run_pipeline_defaults_pass_witness :
  ∃ r w',
    run_pipeline (RunRequest.new None None None None None) unreachable_world
    = (Returned r, w')
    ∧ is_Some (r !! "script") ∧ is_Some (r !! "final_url").
Proof. exact (run_pipeline_defaults_pass None None None unreachable_world). Defined.

Lemma remap_id_document_witness :
  remap_id stored_doc !! "id" = Some (PStr "7")
  ∧ remap_id stored_doc !! "topic" = Some (PStr "Rust").
Proof.
  destruct (remap_id_document stored_doc) as (Hid & _ & _ & Hother & _).
  split.
  - exact (Hid (PObjectId 7) ltac:(vm_compute; reflexivity)).
  - rewrite (Hother "topic" ltac:(discriminate) ltac:(discriminate)).
    vm_compute. reflexivity.
Defined.

Lemma list_jobs_keeps_documents_witness :
  events_of (list_jobs 1) two_jobs_world = [GetDocuments "videojob" 1]
  ∧ ∃ out, (list_jobs 1 two_jobs_world).1 = Returned out ∧ length out = 1%nat.
Proof.
  destruct (list_jobs_keeps_documents 1 two_jobs_world) as (Hev & _ & _ & Hdone).
  split; [exact Hev|].
  destruct (Hdone [MemStore.document (0%N, <["topic" := PStr "Rust"]> ∅)] eq_refl)
    as (out & E & Hlen & _).
  exists out. split; [exact E|exact Hlen].
Defined.

Lemma create_job_inserts_as_given_witness :
  events_of (create_job queued_job) fresh_world
  = [CreateDocument "videojob" queued_job]
  ∧ ∃ r, (create_job queued_job fresh_world).1 = Returned r
         ∧ r !! "status" = Some (PStr "queued").
Proof.
  destruct (create_job_inserts_as_given queued_job fresh_world)
    as (Hev & _ & _ & Hdone).
  split; [exact Hev|].
  destruct (Hdone "0" ltac:(vm_compute; reflexivity)) as (r & E & _ & _ & Hs).
  exists r. split; [exact E|exact Hs].
Defined.

Lemma VideoJob_accepts_iff_witness :
  ∃ job, VideoJob.new completed_job_args = Returned job.
Proof.
  apply (proj2 (VideoJob_accepts_iff completed_job_args)).
  split; [by eexists|].
  split; [intros f [= <-]; compute_done|].
  split; [intros s [= <-]; compute_done|].
  intros p [= <-]. lia.
Defined.

Lemma VideoJob_error_names_fields_witness :
  ∃ locs, VideoJob.new fourk_job = Raised (ValidationError locs)
          ∧ "format" ∈ locs ∧ "topic" ∉ locs.
Proof.
  destruct (VideoJob_error_names_fields fourk_job (ValidationError ["format"])
              eq_refl) as (locs & E & _ & Ht & Hf & _).
  injection E as <-. exists ["format"]. split; [reflexivity|].
  split; [apply Hf; exists "4k"; split; [reflexivity|compute_done]|].
  intros Hin. apply Ht in Hin. discriminate Hin.
Defined.

Lemma VideoJob_keeps_supplied_values_witness :
  ∃ job, VideoJob.new completed_job_args = Returned job
         ∧ VideoJob.format job = "9:16" ∧ VideoJob.progress job = 40.
Proof.
  eexists. split; [reflexivity|].
  destruct (VideoJob_keeps_supplied_values completed_job_args _ eq_refl)
    as (_ & _ & Hf & _ & Hp).
  split; [exact (Hf "9:16" eq_refl)|exact (Hp 40 eq_refl)].
Defined.

Lemma User_accepts_iff_witness : ∃ u, User.new teen_user = Returned u.
Proof.
  apply (proj2 (proj1 (User_accepts_iff teen_user))).
  split; [by eexists|]. split; [by eexists|]. split; [by eexists|].
  intros a [= <-]. lia.
Defined.

Lemma test_database_reports_environment_witness :
  test_database (Some failing_db) sample_env !! "database_url"
  = Some (PStr env_set)
  ∧ test_database (Some failing_db) sample_env !! "database_name"
    = Some (PStr env_not_set).
Proof.
  destruct (test_database_reports_environment (Some failing_db) sample_env)
    as (_ & _ & Hu & Hn & _).
  split; [exact Hu|exact Hn].
Defined.

Lemma test_database_collections_witness :
  ∃ names,
    test_database (Some busy_db) sample_env !! "collections"
    = Some (PList (PStr <$> names))
    ∧ length names = 10%nat.
Proof.
  destruct (test_database_collections (Some busy_db) sample_env)
    as (names & E & _ & Htake & _).
  exists names. split; [exact E|].
  rewrite (Htake busy_db _ eq_refl ltac:(discriminate) eq_refl). reflexivity.
Defined.

Lemma test_database_status_witness :
  test_database (Some failing_db) sample_env !! "database"
  = Some (PStr (db_connected_error
                +:+ "connection refused by the server at 10.0.0.1:27017"))
  ∧ test_database (Some failing_db) sample_env !! "connection_status"
    = Some (PStr "Connected").
Proof.
  destruct (test_database_status (Some failing_db) sample_env)
    as (_ & _ & Hfail & _).
  exact (Hfail failing_db _ eq_refl ltac:(discriminate) eq_refl).
Defined.
